(** * Dandolo Python SDK: the request dispatcher and its consumers

    A shallow embedding of [dandolo/client.py], [dandolo/types.py] and
    [dandolo/exceptions.py].  Python values are a JSON-like inductive,
    dictionaries are finite maps, exceptions are a result type, and the two
    effects of the client (HTTP calls through the [requests] session and
    [time.sleep]) are recorded in an explicit world that is threaded
    through every call.  Strings are ASCII text, integers are unbounded,
    and the float [retry_delay] is a rational. *)

From Stdlib Require Import ZArith QArith String Ascii List Lia.
From stdpp Require Import base option list gmap strings pretty.
Import ListNotations.

Set Warnings "-register-all".

Local Open Scope string_scope.
Local Open Scope Z_scope.
Local Open Scope list_scope.

(** ** Python values *)

(** The values that travel through the client: what [response.json()]
    produces and what [json=data] serialises.  A [dict] with string keys is
    a [gmap]; the insertion order of a Python dict is not observable by any
    code modelled here. *)
Inductive value : Type :=
  | VNone
  | VBool (b : bool)
  | VInt (n : Z)
  | VFloat (q : Q)
  | VStr (s : string)
  | VList (l : list value)
  | VDict (d : gmap string value).

(** ** Strings *)

(** [str.upper] and [str.lower] on ASCII text: the letters a-z and A-Z are
    mapped, every other character is kept. *)
Definition upper_char (c : ascii) : ascii :=
  let n := nat_of_ascii c in
  if ((97 <=? n) && (n <=? 122))%nat then ascii_of_nat (n - 32) else c.

Definition lower_char (c : ascii) : ascii :=
  let n := nat_of_ascii c in
  if ((65 <=? n) && (n <=? 90))%nat then ascii_of_nat (n + 32) else c.

Fixpoint upper (s : string) : string :=
  match s with
  | EmptyString => EmptyString
  | String c s' => String (upper_char c) (upper s')
  end.

Fixpoint lower (s : string) : string :=
  match s with
  | EmptyString => EmptyString
  | String c s' => String (lower_char c) (lower s')
  end.

(** [s.startswith(p)] *)
Definition startswith (s p : string) : bool := String.prefix p s.

(** [needle in hay] for two strings: some suffix of [hay] starts with
    [needle]. *)
Fixpoint contains (needle hay : string) : bool :=
  String.prefix needle hay
  || match hay with
     | EmptyString => false
     | String _ hay' => contains needle hay'
     end.

(** [s.rstrip("/")]: [rstrip_slash] drops every trailing slash. *)
Fixpoint rstrip_slash (s : string) : string :=
  match s with
  | EmptyString => EmptyString
  | String c s' =>
      match rstrip_slash s' with
      | EmptyString => if Ascii.eqb c "/" then EmptyString else String c EmptyString
      | rest => String c rest
      end
  end.

(** ** Exceptions (exceptions.py) *)

Inductive error_class : Type :=
  | CDandoloError
  | CAuthenticationError
  | CRateLimitError
  | CModelNotFoundError
  | CValidationError
  | CServerError
  | CNetworkError.

(** An instance of [DandoloError] or of one of its subclasses.  [message]
    is whatever was passed to the constructor (the dispatcher passes values
    taken from a decoded body, so it is a [value]); [code] is [None] for
    the base class unless given; [retry_after] is the attribute that only
    [RateLimitError] sets, [None] for the other classes. *)
Record dandolo_error : Type := {
  cls : error_class;
  message : value;
  code : option string;
  retry_after : option string
}.

Definition DandoloError (message : value) (code : option string) : dandolo_error :=
  {| cls := CDandoloError; message := message; code := code; retry_after := None |}.

Definition AuthenticationError (message : value) : dandolo_error :=
  {| cls := CAuthenticationError; message := message;
     code := Some "authentication_error"; retry_after := None |}.

Definition RateLimitError (message : value) (retry_after : option string) : dandolo_error :=
  {| cls := CRateLimitError; message := message;
     code := Some "rate_limit_error"; retry_after := retry_after |}.

Definition ModelNotFoundError (message : value) : dandolo_error :=
  {| cls := CModelNotFoundError; message := message;
     code := Some "model_not_found"; retry_after := None |}.

Definition ValidationError (message : value) : dandolo_error :=
  {| cls := CValidationError; message := message;
     code := Some "validation_error"; retry_after := None |}.

Definition ServerError (message : value) : dandolo_error :=
  {| cls := CServerError; message := message;
     code := Some "server_error"; retry_after := None |}.

Definition NetworkError (message : value) : dandolo_error :=
  {| cls := CNetworkError; message := message;
     code := Some "network_error"; retry_after := None |}.

(** What the [requests] session can raise instead of answering.
    [ReqTimeout] stands for [requests.exceptions.Timeout] and its
    subclasses, [ReqConnectionError] for
    [requests.exceptions.ConnectionError]; any other transport exception is
    [ReqOther]. *)
Inductive requests_exception : Type :=
  | ReqTimeout
  | ReqConnectionError
  | ReqOther.

(** Every exception a modelled call can end with: the built-in ones raised
    by the client itself or by the interpreter, those of [requests], and
    the SDK's own hierarchy. *)
Inductive exn : Type :=
  | ValueError (msg : string)
  | TypeError
  | AttributeError
  | JSONDecodeError
  | OverflowError
  | Requests (e : requests_exception)
  | SdkError (e : dandolo_error).

(** [isinstance(e, DandoloError)] *)
Definition is_DandoloError (e : exn) : bool :=
  match e with SdkError _ => true | _ => false end.

Inductive result (A : Type) : Type :=
  | Return (a : A)
  | Raise (e : exn).
Arguments Return {A} a.
Arguments Raise {A} e.

(** ** The world: transport, clock, and the record of effects *)

(** The body of a response as [response.content] and [response.json()]
    see it: no bytes at all, bytes that do not decode as JSON, or bytes
    that decode to [v]. *)
Inductive content : Type :=
  | NoContent
  | Undecodable (raw : string)
  | Json (v : value).

(** [headers] is the [CaseInsensitiveDict] of [requests]: it is keyed by
    the lower-cased header name. *)
Record response : Type := {
  status_code : Z;
  body : content;
  headers : gmap string string
}.

Inductive outcome : Type :=
  | Responds (r : response)
  | Fails (e : requests_exception).

Inductive event : Type :=
  | EvGet (url : string) (timeout : Z)
  | EvPost (url : string) (json : option value) (timeout : Z)
  | EvSleep (seconds : Q).

(** [transport k] is what the network does with the [k]-th HTTP call of
    this run, [clock k] is the [k]-th reading of [int(time.time())];
    [sent] and [ticks] count the calls and readings made so far, [trace]
    lists the HTTP calls and sleeps in the order they happened. *)
Record world : Type := {
  transport : nat -> outcome;
  clock : nat -> Z;
  sent : nat;
  ticks : nat;
  trace : list event
}.

Definition boot (transport : nat -> outcome) (clock : nat -> Z) : world :=
  {| transport := transport; clock := clock; sent := 0; ticks := 0; trace := [] |}.

Definition M (A : Type) : Type := world -> result A * world.

Definition ret {A} (a : A) : M A := fun w => (Return a, w).

Definition raise {A} (e : exn) : M A := fun w => (Raise e, w).

Definition bind {A B} (c : M A) (k : A -> M B) : M B :=
  fun w =>
    match c w with
    | (Return a, w') => k a w'
    | (Raise e, w') => (Raise e, w')
    end.

Definition lift {A} (r : result A) : M A := fun w => (r, w).

Declare Scope py_scope.
Delimit Scope py_scope with py.
Notation "x <- c ;; k" := (bind c (fun x => k))
  (at level 100, c at next level, right associativity) : py_scope.
Notation "c ;; k" := (bind c (fun _ => k))
  (at level 100, right associativity) : py_scope.
Local Open Scope py_scope.

(** [try: body except ...:] where [handlers e] is [Some h] when one of the
    [except] clauses matches [e]; an exception no clause matches goes on to
    the caller. *)
Definition try_except {A} (body : M A) (handlers : exn -> option (M A)) : M A :=
  fun w =>
    match body w with
    | (Return a, w') => (Return a, w')
    | (Raise e, w') =>
        match handlers e with
        | Some h => h w'
        | None => (Raise e, w')
        end
    end.

(** The session performs the call: the event is recorded, the counter
    advances, and the transport either answers or raises. *)
Definition record_call (ev : event) (w : world) : world :=
  {| transport := transport w; clock := clock w; sent := S (sent w);
     ticks := ticks w; trace := trace w ++ [ev] |}.

Definition perform (ev : event) : M response :=
  fun w =>
    match transport w (sent w) with
    | Responds r => (Return r, record_call ev w)
    | Fails e => (Raise (Requests e), record_call ev w)
    end.

Definition session_get (url : string) (timeout : Z) : M response :=
  perform (EvGet url timeout).

Definition session_post (url : string) (json : option value) (timeout : Z) : M response :=
  perform (EvPost url json timeout).

(** The longest sleep the interpreter can represent: [time.sleep] counts
    nanoseconds in a signed 64-bit integer. *)
Definition sleep_limit : Q := 9223372036854775807 # 1000000000.

Definition record_sleep (seconds : Q) (w : world) : world :=
  {| transport := transport w; clock := clock w; sent := sent w;
     ticks := ticks w; trace := trace w ++ [EvSleep seconds] |}.

(** [time.sleep(seconds)]: a length outside the range of the nanosecond
    counter is refused with [OverflowError], a negative one within it with
    [ValueError]; nothing is slept then. *)
Definition sleep (seconds : Q) : M unit :=
  fun w =>
    if negb (Qle_bool (Qopp sleep_limit) seconds && Qle_bool seconds sleep_limit) then
      (Raise OverflowError, w)
    else if negb (Qle_bool 0 seconds) then
      (Raise (ValueError "sleep length must be non-negative"), w)
    else (Return tt, record_sleep seconds w).

(** [int(time.time())] *)
Definition record_tick (w : world) : world :=
  {| transport := transport w; clock := clock w; sent := sent w;
     ticks := S (ticks w); trace := trace w |}.

Definition time_time : M Z :=
  fun w => (Return (clock w (ticks w)), record_tick w).

(** ** Operations on decoded values *)

(** [response.json()] *)
Definition response_json (r : response) : result value :=
  match body r with
  | Json v => Return v
  | _ => Raise JSONDecodeError
  end.

(** The truth value of [response.content]. *)
Definition has_content (r : response) : bool :=
  match body r with
  | NoContent => false
  | _ => true
  end.

(** [v.get(key, default)]: only a dict has the method. *)
Definition py_get (v : value) (key : string) (default : value) : result value :=
  match v with
  | VDict d => Return (match d !! key with Some x => x | None => default end)
  | _ => Raise AttributeError
  end.

(** [response.headers.get(name)] *)
Definition headers_get (r : response) (name : string) : option string :=
  headers r !! lower name.

(** [d.update(other)]: the entries of [other] replace those of [d]. *)
Definition dict_update (d other : gmap string value) : gmap string value :=
  other ∪ d.

(** [error_data.get("error", {}).get("message", default)] where
    [error_data = response.json() if response.content else {}]. *)
Definition error_message (r : response) (default : value) : result value :=
  match (if has_content r then response_json r else Return (VDict ∅)) with
  | Raise e => Raise e
  | Return error_data =>
      match py_get error_data "error" (VDict ∅) with
      | Raise e => Raise e
      | Return err => py_get err "message" default
      end
  end.

(** ** The client (client.py, class Dandolo) *)

(** The attributes [__init__] stores.  [session_headers] are the headers
    installed on the [requests.Session]. *)
Record Dandolo : Type := {
  api_key : string;
  base_url : string;
  timeout : Z;
  max_retries : Z;
  retry_delay : Q;
  session_headers : list (string * string)
}.

(** [Dandolo.__init__].  [api_key] is [Optional[str]]; [not api_key] holds
    for [None] and for the empty string. *)
Definition Dandolo_init (api_key : option string) (base_url : string)
    (timeout max_retries : Z) (retry_delay : Q) : M Dandolo :=
  match api_key with
  | None => raise (ValueError "API key is required")
  | Some EmptyString => raise (ValueError "API key is required")
  | Some key =>
      if negb (startswith key "dk_" || startswith key "ak_") then
        raise (ValueError "API key must start with 'dk_' (developer) or 'ak_' (agent)")
      else
        ret {| api_key := key;
               base_url := rstrip_slash base_url;
               timeout := timeout;
               max_retries := max_retries;
               retry_delay := retry_delay;
               session_headers :=
                 [("Authorization", "Bearer " +:+ key);
                  ("Content-Type", "application/json");
                  ("User-Agent", "dandolo-python-sdk/1.0.0")] |}
  end.

(** The defaults of [__init__]. *)
Definition default_base_url : string := "https://api.dandolo.ai".
Definition default_timeout : Z := 60.
Definition default_max_retries : Z := 3.
Definition default_retry_delay : Q := 1.

(** The value of [self.retry_delay * (2 ** attempt)]. *)
Definition backoff (self : Dandolo) (attempt : Z) : Q :=
  Qmult (retry_delay self) (inject_Z (2 ^ attempt)).

(** The evaluation of [self.retry_delay * (2 ** attempt)]: the integer
    power is converted to a float for the product, and an integer of 2^1024
    or more does not convert. *)
Definition backoff_delay (self : Dandolo) (attempt : Z) : result Q :=
  if attempt <? 1024 then Return (backoff self attempt) else Raise OverflowError.

(** [time.sleep(self.retry_delay * (2 ** attempt))] *)
Definition back_off (self : Dandolo) (attempt : Z) : M unit :=
  fun w =>
    match backoff_delay self attempt with
    | Return seconds => sleep seconds w
    | Raise e => (Raise e, w)
    end.

(** What one iteration of the loop of [_request] tells the loop to do:
    [return] a value or [continue]. *)
Inductive step (A : Type) : Type :=
  | Done (a : A)
  | Continue.
Arguments Done {A} a.
Arguments Continue {A}.

(** The [if]/[elif] chain on [response.status_code]. *)
Definition handle_status (self : Dandolo) (endpoint : string)
    (attempt : Z) (r : response) : M (step value) :=
  if status_code r =? 200 then
    v <- lift (response_json r) ;; ret (Done v)
  else if status_code r =? 401 then
    raise (SdkError (AuthenticationError (VStr "Invalid API key")))
  else if status_code r =? 429 then
    m <- lift (error_message r (VStr "Rate limit exceeded")) ;;
    raise (SdkError (RateLimitError m (headers_get r "Retry-After")))
  else if status_code r =? 404 then
    if contains "model" endpoint then
      raise (SdkError (ModelNotFoundError (VStr "Specified model not found")))
    else
      raise (SdkError (DandoloError (VStr ("Endpoint not found: " +:+ endpoint)) None))
  else if status_code r =? 400 then
    m <- lift (error_message r (VStr "Invalid request")) ;;
    raise (SdkError (ValidationError m))
  else if status_code r >=? 500 then
    if attempt <? max_retries self then
      back_off self attempt ;; ret Continue
    else
      raise (SdkError (DandoloError (VStr ("Server error: " +:+ pretty (status_code r))) None))
  else
    m <- lift (error_message r (VStr ("Unknown error: " +:+ pretty (status_code r)))) ;;
    raise (SdkError (DandoloError m None)).

(** The body of the [try] block. *)
Definition attempt_once (self : Dandolo) (method endpoint : string)
    (data : option value) (attempt : Z) : M (step value) :=
  let url := base_url self +:+ endpoint in
  r <- (if String.eqb (upper method) "GET" then session_get url (timeout self)
        else if String.eqb (upper method) "POST" then session_post url data (timeout self)
        else raise (ValueError ("Unsupported HTTP method: " +:+ method))) ;;
  handle_status self endpoint attempt r.

(** The two [except] clauses. *)
Definition transport_handlers (self : Dandolo) (attempt : Z)
    (e : exn) : option (M (step value)) :=
  match e with
  | Requests ReqTimeout =>
      Some (if attempt <? max_retries self then
              back_off self attempt ;; ret Continue
            else raise (SdkError (DandoloError (VStr "Request timeout") None)))
  | Requests ReqConnectionError =>
      Some (if attempt <? max_retries self then
              back_off self attempt ;; ret Continue
            else raise (SdkError (DandoloError (VStr "Connection error") None)))
  | _ => None
  end.

(** [for attempt in range(...)] with [remaining] iterations left, followed
    by the statement after the loop. *)
Fixpoint request_loop (self : Dandolo) (method endpoint : string)
    (data : option value) (remaining : nat) (attempt : Z) : M value :=
  match remaining with
  | O => raise (SdkError (DandoloError (VStr "Max retries exceeded") None))
  | S remaining' =>
      s <- try_except (attempt_once self method endpoint data attempt)
                      (transport_handlers self attempt) ;;
      match s with
      | Done v => ret v
      | Continue => request_loop self method endpoint data remaining' (attempt + 1)
      end
  end.

(** [Dandolo._request] *)
Definition _request (self : Dandolo) (method endpoint : string)
    (data : option value) : M value :=
  request_loop self method endpoint data (Z.to_nat (max_retries self + 1)) 0.

(** [Dandolo.validate_key]; the report is the dict it returns. *)
Definition validate_key (self : Dandolo) : M (gmap string value) :=
  try_except
    (_ <- _request self "GET" "/v1/models" None ;;
     let key_type := if startswith (api_key self) "ak_" then "agent" else "developer" in
     let daily_limit := if String.eqb key_type "agent" then 5000 else 500 in
     ret (<["is_valid" := VBool true]>
          (<["key_type" := VStr key_type]>
           (<["daily_usage" := VInt 0]>
            (<["daily_limit" := VInt daily_limit]>
             (<["remaining" := VInt daily_limit]> ∅))))))
    (fun e =>
       match e with
       | SdkError _ =>
           Some (ret (<["is_valid" := VBool false]>
                      (<["key_type" := VNone]>
                       (<["daily_usage" := VNone]>
                        (<["daily_limit" := VNone]>
                         (<["remaining" := VNone]> ∅))))))
       | _ => None
       end).

(** [Dandolo.get_usage] *)
Definition get_usage (self : Dandolo) : M (gmap string value) :=
  validate_key self.

(** ** Records (types.py) *)

(** [for x in v]: the elements a [for] loop or a comprehension visits.  A
    dict yields its keys (here in the order of the finite map; the one
    consumer, [Model.new], refuses every key alike) and a string its
    characters; the other values are not iterable. *)
Definition py_iter (v : value) : result (list value) :=
  match v with
  | VList l => Return l
  | VDict d => Return (map (fun kv => VStr (fst kv)) (map_to_list d))
  | VStr s => Return (map (fun c => VStr (String c EmptyString)) (list_ascii_of_string s))
  | _ => Raise TypeError
  end.

(** A list comprehension whose element expression can raise. *)
Fixpoint comprehension {A B} (f : A -> M B) (l : list A) : M (list B) :=
  match l with
  | [] => ret []
  | x :: l' => y <- f x ;; ys <- comprehension f l' ;; ret (y :: ys)
  end.

Module Model.

(** The dataclass [Model]; a dataclass does not check the types of its
    fields, so each holds a [value]. *)
Record t : Type := {
  id : value;
  object : value;
  created : value;
  owned_by : value;
  type : value;
  context_length : value
}.

Definition fields : list string :=
  ["id"; "object"; "created"; "owned_by"; "type"; "context_length"].

(** The keyword arguments the generated [__init__] accepts: every key
    names a field and the field without default, [id], is given. *)
Definition accepts (d : gmap string value) : Prop :=
  map_Forall (fun k _ => k ∈ fields) d /\ is_Some (d !! "id").

(** [Model] called with the entries of [kw] as keyword arguments: the
    generated [__init__], then [__post_init__]. *)
Definition new (kw : value) : M t :=
  match kw with
  | VDict d =>
      if bool_decide (map_Forall (fun k _ => k ∈ fields) d) then
        match d !! "id" with
        | None => raise TypeError
        | Some i =>
            created <- match default VNone (d !! "created") with
                       | VNone => n <- time_time ;; ret (VInt n)
                       | c => ret c
                       end ;;
            ret {| id := i;
                   object := default (VStr "model") (d !! "object");
                   created := created;
                   owned_by := default (VStr "dandolo") (d !! "owned_by");
                   type := default VNone (d !! "type");
                   context_length := default VNone (d !! "context_length") |}
        end
      else raise TypeError
  | _ => raise TypeError
  end.

End Model.

(** ** Endpoint handlers (client.py, classes Models and ChatCompletions) *)

Module Models.

(** [Models.list] *)
Definition list (self : Dandolo) : M (list Model.t) :=
  response <- _request self "GET" "/v1/models" None ;;
  data <- lift (py_get response "data" (VList [])) ;;
  models <- lift (py_iter data) ;;
  comprehension Model.new models.

End Models.

Module ChatCompletions.

(** The parameters of [create] after [self], as the body sees them once
    a call is bound; [kwargs] holds the excess keyword arguments. *)
Record arguments : Type := {
  messages : value;
  model : value;
  max_tokens : value;
  temperature : value;
  stream : value;
  kwargs : gmap string value
}.

Definition parameters : list string :=
  ["messages"; "model"; "max_tokens"; "temperature"; "stream"].

(** The value of the parameter [name], [i]-th after [self], in a call
    with positional arguments [pos] and keyword arguments [kw]. *)
Definition argument (pos : list value) (kw : gmap string value)
    (i : nat) (name : string) (default : option value) : result value :=
  match pos !! i, kw !! name with
  | Some _, Some _ => Raise TypeError
  | Some v, None => Return v
  | None, Some v => Return v
  | None, None =>
      match default with
      | Some v => Return v
      | None => Raise TypeError
      end
  end.

(** Binding of a call of the bound method [create] with positional
    arguments [pos] and keyword arguments [kw]: Python
    gives each keyword that names a parameter to that parameter, refuses
    a parameter given twice or a missing [messages], and collects the
    keywords left over in [kwargs]. *)
Definition bind_call (pos : list value) (kw : gmap string value) : result arguments :=
  if (5 <? length pos)%nat then Raise TypeError
  else if bool_decide (is_Some (kw !! "self")) then Raise TypeError
  else
    match argument pos kw 0 "messages" None,
          argument pos kw 1 "model" (Some (VStr "auto-select")),
          argument pos kw 2 "max_tokens" (Some VNone),
          argument pos kw 3 "temperature" (Some VNone),
          argument pos kw 4 "stream" (Some (VBool false)) with
    | Return messages, Return model, Return max_tokens,
      Return temperature, Return stream =>
        Return {| messages := messages; model := model;
                  max_tokens := max_tokens; temperature := temperature;
                  stream := stream;
                  kwargs := filter (fun kv => kv.1 ∉ parameters) kw |}
    | _, _, _, _, _ => Raise TypeError
    end.

(** [x is not None] *)
Definition is_not_None (v : value) : bool :=
  match v with VNone => false | _ => true end.

(** The dict literal and the two conditional assignments. *)
Definition required_fields (a : arguments) : gmap string value :=
  let data := <["stream" := stream a]>
              (<["messages" := messages a]>
               (<["model" := model a]> ∅)) in
  let data := if is_not_None (max_tokens a)
              then <["max_tokens" := max_tokens a]> data else data in
  if is_not_None (temperature a)
  then <["temperature" := temperature a]> data else data.

(** [data] as it is when [_request] is called. *)
Definition request_body (a : arguments) : gmap string value :=
  dict_update (required_fields a) (kwargs a).

(** The body of [ChatCompletions.create]. *)
Definition create (self : Dandolo) (a : arguments) : M value :=
  _request self "POST" "/v1/chat/completions" (Some (VDict (request_body a))).

(** A call of [create] with positional arguments [pos] and keyword
    arguments [kw]. *)
Definition call_create (self : Dandolo) (pos : Datatypes.list value)
    (kw : gmap string value) : M value :=
  a <- lift (bind_call pos kw) ;; create self a.

End ChatCompletions.

(** ** Vocabulary of the statements *)

(** The methods [_request] knows, compared the way the code compares
    them: after [upper]. *)
Definition supported (method : string) : Prop :=
  upper method = "GET" \/ upper method = "POST".

(** The HTTP call one attempt of [_request] makes for a supported method. *)
Definition http_event (self : Dandolo) (method endpoint : string)
    (data : option value) : event :=
  if String.eqb (upper method) "GET"
  then EvGet (base_url self +:+ endpoint) (timeout self)
  else EvPost (base_url self +:+ endpoint) data (timeout self).

(** The trace of [j] failed attempts, numbered from [k0], each followed by
    its backoff sleep. *)
Definition retries (self : Dandolo) (ev : event) (k0 j : nat) : list event :=
  flat_map (fun k => [ev; EvSleep (backoff self (Z.of_nat k))]) (seq k0 j).


(** The number of HTTP calls in a trace, and the sleeps in it. *)
Definition is_call (e : event) : bool :=
  match e with EvSleep _ => false | _ => true end.

Definition attempts (tr : list event) : nat :=
  length (List.filter is_call tr).

Definition sleeps (tr : list event) : list Q :=
  omap (fun e => match e with EvSleep q => Some q | _ => None end) tr.

(** [needle] occurs in [hay]. *)
Definition occurs_in (needle hay : string) : Prop :=
  exists before after, hay = before +:+ needle +:+ after.

(** The error bodies from which the dispatcher can read a message: no
    body at all, or a JSON object whose ["error"] entry, when there is one,
    is an object. *)
Definition error_body_readable (r : response) : bool :=
  match body r with
  | NoContent => true
  | Json (VDict d) =>
      match d !! "error" with
      | None | Some (VDict _) => true
      | Some _ => false
      end
  | _ => false
  end.

(** The entry [error.message] of the body, when the body has one. *)
Definition body_error_message (r : response) : option value :=
  match body r with
  | Json (VDict d) =>
      match d !! "error" with
      | Some (VDict e) => e !! "message"
      | _ => None
      end
  | _ => None
  end.

(** An element of ["data"] from which [Model] can be built: a JSON
    object with an ["id"] and no entry other than the six fields. *)
Definition model_shaped (el : value) : Prop :=
  exists d, el = VDict d
    /\ map_Forall (fun k _ =>
         k ∈ ["id"; "object"; "created"; "owned_by"; "type"; "context_length"]) d
    /\ is_Some (d !! "id").

(** An element whose ["created"] is absent or null: the one for which
    [Model] reads the clock. *)
Definition lacks_created (el : value) : bool :=
  match el with
  | VDict d =>
      match d !! "created" with
      | None | Some VNone => true
      | Some _ => false
      end
  | _ => false
  end.

(** The record built from an element at a moment when the clock reads
    [now]: every entry of the element is the field of that name, an absent
    entry leaves the default of the dataclass, and an absent or null
    [created] is replaced by [now]. *)
Definition built_from (now : Z) (el : value) (m : Model.t) : Prop :=
  exists d, el = VDict d
    /\ d !! "id" = Some (Model.id m)
    /\ Model.object m = default (VStr "model") (d !! "object")
    /\ Model.created m = (if lacks_created el then VInt now
                          else default VNone (d !! "created"))
    /\ Model.owned_by m = default (VStr "dandolo") (d !! "owned_by")
    /\ Model.type m = default VNone (d !! "type")
    /\ Model.context_length m = default VNone (d !! "context_length").

(** The number of clock readings the elements of [els] cause. *)
Definition clock_readings (els : list value) : nat :=
  length (List.filter lacks_created els).

(** The world after [n] more readings of the clock. *)
Definition after_readings (n : nat) (w : world) : world :=
  {| transport := transport w; clock := clock w; sent := sent w;
     ticks := (ticks w + n)%nat; trace := trace w |}.

(** The attempts after which the backoff can be slept: the power of two
    still converts to a float, and the delay is a length [time.sleep]
    accepts. *)
Definition sleepable (self : Dandolo) (attempt : Z) : bool :=
  (attempt <? 1024)
  && Qle_bool 0 (backoff self attempt)
  && Qle_bool (backoff self attempt) sleep_limit.

(** ** Concrete inputs *)

(** A client as [__init__] leaves it when called with an agent key and
    the defaults. *)
Definition example_client : Dandolo :=
  {| api_key := "ak_0123456789abcdef";
     base_url := default_base_url;
     timeout := default_timeout;
     max_retries := default_max_retries;
     retry_delay := default_retry_delay;
     session_headers :=
       [("Authorization", "Bearer ak_0123456789abcdef");
        ("Content-Type", "application/json");
        ("User-Agent", "dandolo-python-sdk/1.0.0")] |}.

(** An answer with status [s], body [b] and no header of interest. *)
Definition reply (s : Z) (b : content) : response :=
  {| status_code := s; body := b; headers := ∅ |}.

(** A network that always gives the same answer, and a clock. *)
Definition always (r : response) : nat -> outcome := fun _ => Responds r.

Definition noon : nat -> Z := fun _ => 1700000000.

(** ** More of types.py and of the scripts *)

Module ChatCompletion.

(** The dataclass [ChatCompletion]; as for [Model], each field holds
    whatever [value] the caller passes. *)
Record t : Type := {
  id : value;
  object : value;
  created : value;
  model : value;
  choices : value;
  usage : value
}.

Definition fields : list string :=
  ["id"; "object"; "created"; "model"; "choices"; "usage"].

(** [ChatCompletion] called with the entries of [kw] as keyword
    arguments: the generated [__init__], then [__post_init__], which
    replaces a [None] in [created] by the time and a [None] in [choices] by
    the empty list. *)
Definition new (kw : value) : M t :=
  match kw with
  | VDict d =>
      if bool_decide (map_Forall (fun k _ => k ∈ fields) d) then
        match d !! "id" with
        | None => raise TypeError
        | Some i =>
            created <- match default VNone (d !! "created") with
                       | VNone => n <- time_time ;; ret (VInt n)
                       | c => ret c
                       end ;;
            ret {| id := i;
                   object := default (VStr "chat.completion") (d !! "object");
                   created := created;
                   model := default (VStr "auto-select") (d !! "model");
                   choices := match default VNone (d !! "choices") with
                              | VNone => VList []
                              | c => c
                              end;
                   usage := default VNone (d !! "usage") |}
        end
      else raise TypeError
  | _ => raise TypeError
  end.

End ChatCompletion.

(** [validate_api_key] of test-dandolo-integration.py: a non-empty key
    with one of the two prefixes and at least 20 characters. *)
Definition validate_api_key (api_key : string) : bool :=
  match api_key with
  | EmptyString => false
  | _ =>
      let valid_prefixes := ["dk_"; "ak_"] in
      let has_valid_prefix := existsb (fun prefix => startswith api_key prefix) valid_prefixes in
      let min_length := 20%nat in
      has_valid_prefix && (min_length <=? String.length api_key)%nat
  end.

(** ** Vocabulary of the further statements *)



(** The code each class of exceptions.py gives its instances. *)
Definition code_of (c : error_class) : option string :=
  match c with
  | CDandoloError => None
  | CAuthenticationError => Some "authentication_error"
  | CRateLimitError => Some "rate_limit_error"
  | CModelNotFoundError => Some "model_not_found"
  | CValidationError => Some "validation_error"
  | CServerError => Some "server_error"
  | CNetworkError => Some "network_error"
  end.

(** The exceptions a call of [_request] can end with. *)
Definition may_escape (e : exn) : bool :=
  match e with
  | SdkError d =>
      match cls d with
      | CServerError | CNetworkError => false
      | _ => bool_decide (code d = code_of (cls d))
      end
  | ValueError _ | JSONDecodeError | AttributeError | OverflowError
  | Requests ReqOther => true
  | TypeError | Requests ReqTimeout | Requests ReqConnectionError => false
  end.

(** [n] slashes. *)
Fixpoint slashes (n : nat) : string :=
  match n with
  | O => EmptyString
  | S n' => String "/" (slashes n')
  end.

(** [s.endswith("/")] *)
Fixpoint ends_with_slash (s : string) : bool :=
  match s with
  | EmptyString => false
  | String c EmptyString => Ascii.eqb c "/"
  | String _ s' => ends_with_slash s'
  end.

(** * Properties *)

(** ** Strings *)

Lemma startswith_spec (s p : string) :
  startswith s p = true <-> exists rest, s = p +:+ rest.
Proof.
  unfold startswith. revert s. induction p as [|a p IH]; intros s.
  - split; [intros _; exists s; reflexivity | intros _; by destruct s].
  - destruct s as [|b s]; simpl.
    + split; [discriminate | intros [rest H]; discriminate].
    + destruct (ascii_dec a b) as [->|Hne].
      * rewrite IH. split; intros [rest H]; exists rest.
        -- by rewrite H.
        -- by injection H.
      * split; [discriminate | intros [rest H]; injection H; congruence].
Qed.

Lemma contains_spec (needle hay : string) :
  contains needle hay = true <-> occurs_in needle hay.
Proof.
  unfold occurs_in. induction hay as [|c hay IH].
  - cbn [contains]. rewrite orb_false_r. fold (startswith "" needle).
    rewrite startswith_spec. split.
    + intros [rest H]. exists "", rest. exact H.
    + intros [[|c b] [a H]]; [exists a; exact H | discriminate].
  - cbn [contains]. rewrite orb_true_iff, IH.
    fold (startswith (String c hay) needle). rewrite startswith_spec. split.
    + intros [[rest H] | (b & a & H)].
      * exists "", rest. exact H.
      * exists (String c b), a. simpl. by rewrite H.
    + intros ([|c' b] & a & H).
      * left. exists a. exact H.
      * right. exists b, a. simpl in H. by injection H.
Qed.

(** ** The dispatcher, one iteration at a time *)


(** A schedule that is sleepable at its last attempt is sleepable before:
    the delays grow with the attempt. *)
Lemma sleepable_earlier (self : Dandolo) (k m : Z) :
  0 <= k <= m ->
  sleepable self m = true ->
  sleepable self k = true.
Proof.
  unfold sleepable. intros Hk H.
  apply andb_true_iff in H as [H Hle]. apply andb_true_iff in H as [Hm H0].
  apply Z.ltb_lt in Hm. apply Qle_bool_iff in H0, Hle.
  assert (Hpow : Qlt 0 (inject_Z (2 ^ m))).
  { change 0%Q with (inject_Z 0). rewrite <- Zlt_Qlt. apply Z.pow_pos_nonneg; lia. }
  assert (Hdelay : Qle 0 (retry_delay self)).
  { unfold backoff in H0. rewrite Qmult_comm in H0.
    apply (Qmult_le_l _ _ _ Hpow). by rewrite Qmult_0_r. }
  assert (Hmono : Qle (backoff self k) (backoff self m)).
  { unfold backoff. rewrite !(Qmult_comm (retry_delay self)).
    apply Qmult_le_compat_r; [| exact Hdelay].
    rewrite <- Zle_Qle. apply Z.pow_le_mono_r; lia. }
  apply andb_true_iff. split; [apply andb_true_iff; split |].
  - apply Z.ltb_lt. lia.
  - apply Qle_bool_iff. unfold backoff. apply Qmult_le_0_compat; [exact Hdelay |].
    change 0%Q with (inject_Z 0). rewrite <- Zle_Qle. apply Z.pow_nonneg. lia.
  - apply Qle_bool_iff. by apply Qle_trans with (backoff self m).
Qed.

Section Dispatcher.

Variable self : Dandolo.
Variables method endpoint : string.
Variable data : option value.

Local Abbreviation ev := (http_event self method endpoint data).

Lemma attempt_once_responds (attempt : Z) (w : world) (r : response) :
  supported method ->
  transport w (sent w) = Responds r ->
  attempt_once self method endpoint data attempt w
  = handle_status self endpoint attempt r (record_call ev w).
Proof.
  intros Hs Hr. unfold attempt_once, bind, ev, http_event.
  destruct Hs as [Hm | Hm]; rewrite Hm; simpl;
    unfold session_get, session_post, perform; by rewrite Hr.
Qed.

Lemma attempt_once_unsupported (attempt : Z) (w : world) :
  ~ supported method ->
  attempt_once self method endpoint data attempt w
  = (Raise (ValueError ("Unsupported HTTP method: " +:+ method)), w).
Proof.
  intros Hs. unfold attempt_once, bind, supported in *.
  destruct (String.eqb_spec (upper method) "GET") as [Hg | _]; [tauto |].
  destruct (String.eqb_spec (upper method) "POST") as [Hp | _]; [tauto |].
  reflexivity.
Qed.

Lemma loop_return (n : nat) (attempt : Z) (w w' : world) (r : response) (v : value) :
  supported method ->
  transport w (sent w) = Responds r ->
  handle_status self endpoint attempt r (record_call ev w) = (Return (Done v), w') ->
  request_loop self method endpoint data (S n) attempt w = (Return v, w').
Proof.
  intros Hs Hr Hh. cbn [request_loop]. unfold bind, try_except.
  by rewrite (attempt_once_responds _ _ _ Hs Hr), Hh.
Qed.


Lemma loop_raise (n : nat) (attempt : Z) (w w' : world) (r : response) (e : exn) :
  supported method ->
  transport w (sent w) = Responds r ->
  handle_status self endpoint attempt r (record_call ev w) = (Raise e, w') ->
  transport_handlers self attempt e = None ->
  request_loop self method endpoint data (S n) attempt w = (Raise e, w').
Proof.
  intros Hs Hr Hh He. cbn [request_loop]. unfold bind, try_except.
  by rewrite (attempt_once_responds _ _ _ Hs Hr), Hh, He.
Qed.

Lemma loop_unsupported (n : nat) (attempt : Z) (w : world) :
  ~ supported method ->
  request_loop self method endpoint data (S n) attempt w
  = (Raise (ValueError ("Unsupported HTTP method: " +:+ method)), w).
Proof.
  intros Hs. cbn [request_loop]. unfold bind, try_except.
  by rewrite (attempt_once_unsupported _ _ Hs).
Qed.

Lemma request_unfold (w : world) :
  0 <= max_retries self ->
  _request self method endpoint data w
  = request_loop self method endpoint data (S (Z.to_nat (max_retries self))) 0 w.
Proof.
  intros Hm. unfold _request. by rewrite <- Z2Nat.inj_succ.
Qed.

End Dispatcher.

Lemma status_is_not (r : response) (s : Z) :
  status_code r <> s -> (status_code r =? s) = false.
Proof. apply Z.eqb_neq. Qed.

Section Status.

Variable self : Dandolo.
Variable endpoint : string.

Lemma handle_status_200 (attempt : Z) (r : response) (w : world) :
  status_code r = 200 ->
  handle_status self endpoint attempt r w
  = match response_json r with
    | Return v => (Return (Done v), w)
    | Raise e => (Raise e, w)
    end.
Proof.
  intros Hs. unfold handle_status. rewrite Hs. cbn. unfold bind, lift.
  by destruct (response_json r).
Qed.

Lemma handle_status_429 (attempt : Z) (r : response) (w : world) :
  status_code r = 429 ->
  handle_status self endpoint attempt r w
  = match error_message r (VStr "Rate limit exceeded") with
    | Return m => (Raise (SdkError (RateLimitError m (headers_get r "Retry-After"))), w)
    | Raise e => (Raise e, w)
    end.
Proof.
  intros Hs. unfold handle_status. rewrite Hs. cbn. unfold bind, lift.
  by destruct (error_message r _).
Qed.

Lemma handle_status_404 (attempt : Z) (r : response) (w : world) :
  status_code r = 404 ->
  handle_status self endpoint attempt r w
  = (Raise (SdkError (if contains "model" endpoint
                     then ModelNotFoundError (VStr "Specified model not found")
                     else DandoloError (VStr ("Endpoint not found: " +:+ endpoint)) None)),
     w).
Proof.
  intros Hs. unfold handle_status. rewrite Hs. cbn.
  by destruct (contains "model" endpoint).
Qed.

Lemma handle_status_400 (attempt : Z) (r : response) (w : world) :
  status_code r = 400 ->
  handle_status self endpoint attempt r w
  = match error_message r (VStr "Invalid request") with
    | Return m => (Raise (SdkError (ValidationError m)), w)
    | Raise e => (Raise e, w)
    end.
Proof.
  intros Hs. unfold handle_status. rewrite Hs. cbn. unfold bind, lift.
  by destruct (error_message r _).
Qed.



End Status.

(** The message read from an error body. *)
Lemma error_message_readable (r : response) (dflt : value) :
  error_body_readable r = true ->
  error_message r dflt = Return (default dflt (body_error_message r)).
Proof.
  unfold error_body_readable, error_message, body_error_message, has_content,
    response_json.
  destruct (body r) as [| raw | v]; [reflexivity | discriminate |].
  destruct v; try discriminate. cbn.
  destruct (d !! "error") as [[] |] eqn:He; try discriminate; cbn.
  - by destruct (d0 !! "message").
  - by rewrite lookup_empty.
Qed.

(** Any other body makes the reading itself fail. *)
Lemma error_message_unreadable (r : response) (dflt : value) :
  error_body_readable r = false ->
  error_message r dflt = Raise JSONDecodeError
  \/ error_message r dflt = Raise AttributeError.
Proof.
  unfold error_body_readable, error_message, has_content, response_json.
  destruct (body r) as [| raw | v]; [discriminate | by left |].
  destruct v; try (by right). cbn.
  destruct (d !! "error") as [[] |] eqn:He; try discriminate; by right.
Qed.


Lemma is_call_http_event (self : Dandolo) (method endpoint : string)
    (data : option value) :
  is_call (http_event self method endpoint data) = true.
Proof. unfold http_event. by destruct (String.eqb _ _). Qed.

Lemma attempts_retries (self : Dandolo) (ev : event) (j k0 : nat) (tl : list event) :
  is_call ev = true ->
  attempts (retries self ev k0 j ++ tl) = (j + attempts tl)%nat.
Proof.
  intros Hev. unfold attempts, retries. revert k0.
  induction j as [| j IH]; intros k0; [reflexivity |].
  cbn [seq flat_map app List.filter is_call]. rewrite Hev. cbn [length].
  by rewrite IH.
Qed.

Lemma sleeps_retries (self : Dandolo) (ev : event) (j k0 : nat) (tl : list event) :
  is_call ev = true ->
  sleeps (retries self ev k0 j ++ tl)
  = map (fun k => backoff self (Z.of_nat k)) (seq k0 j) ++ sleeps tl.
Proof.
  intros Hev. unfold sleeps, retries. revert k0.
  induction j as [| j IH]; intros k0; [reflexivity |].
  cbn [seq flat_map app map omap]. destruct ev; try discriminate; cbn; by rewrite IH.
Qed.

Section Retries.

Variable self : Dandolo.
Variables method endpoint : string.
Variable data : option value.
Hypothesis Hmethod : supported method.
Hypothesis Hdelay : forall k, 0 <= k < max_retries self -> sleepable self k = true.

Local Abbreviation ev := (http_event self method endpoint data).


End Retries.

(** A first answer with status 200 and a JSON body ends the call with
    that body, decoded. *)
Lemma request_first_200 (self : Dandolo) (method endpoint : string)
    (data : option value) (w : world) (r : response) (v : value) :
  0 <= max_retries self ->
  supported method ->
  transport w (sent w) = Responds r ->
  status_code r = 200 ->
  body r = Json v ->
  _request self method endpoint data w
  = (Return v, record_call (http_event self method endpoint data) w).
Proof.
  intros Hmax Hmethod Hr Hs Hv. rewrite request_unfold by exact Hmax.
  erewrite loop_return; [reflexivity | exact Hmethod | exact Hr |].
  rewrite handle_status_200 by exact Hs. unfold response_json. by rewrite Hv.
Qed.

(** ** The dispatcher: retries *)



(** ** The dispatcher: answers that end the call at once *)

Section Terminal.

Variable self : Dandolo.
Variables method endpoint : string.
Variable data : option value.
Variables (net : nat -> outcome) (clk : nat -> Z).
Variable r : response.
Hypothesis Hmax : 0 <= max_retries self.
Hypothesis Hmethod : supported method.
Hypothesis Hfirst : net 0%nat = Responds r.

Local Abbreviation ev := (http_event self method endpoint data).
Local Abbreviation run := (_request self method endpoint data (boot net clk)).

(** An exception raised while the first answer is handled, and that no
    [except] clause catches, ends the call after that one attempt. *)
Lemma first_answer_raises (e : exn) :
  handle_status self endpoint 0 r (record_call ev (boot net clk))
  = (Raise e, record_call ev (boot net clk)) ->
  transport_handlers self 0 e = None ->
  fst run = Raise e /\ trace (snd run) = [ev].
Proof.
  intros Hh He. rewrite request_unfold by exact Hmax.
  erewrite loop_raise; [| exact Hmethod | exact Hfirst | exact Hh | exact He].
  by split.
Qed.

Lemma rate_limited_answer :
  status_code r = 429 ->
  match error_message r (VStr "Rate limit exceeded") with
  | Return m =>
      fst run = Raise (SdkError (RateLimitError m (headers_get r "Retry-After")))
  | Raise e => fst run = Raise e
  end /\ trace (snd run) = [ev].
Proof.
  intros Hs.
  pose proof (handle_status_429 self endpoint 0 r (record_call ev (boot net clk)) Hs) as Hh.
  destruct (error_message r _) as [m | e] eqn:Hm.
  - by apply first_answer_raises.
  - apply first_answer_raises; [exact Hh |].
    unfold error_message, response_json, py_get in Hm.
    repeat case_match; simplify_eq; reflexivity.
Qed.

Lemma invalid_request_answer :
  status_code r = 400 ->
  match error_message r (VStr "Invalid request") with
  | Return m => fst run = Raise (SdkError (ValidationError m))
  | Raise e => fst run = Raise e
  end /\ trace (snd run) = [ev].
Proof.
  intros Hs.
  pose proof (handle_status_400 self endpoint 0 r (record_call ev (boot net clk)) Hs) as Hh.
  destruct (error_message r _) as [m | e] eqn:Hm.
  - by apply first_answer_raises.
  - apply first_answer_raises; [exact Hh |].
    unfold error_message, response_json, py_get in Hm.
    repeat case_match; simplify_eq; reflexivity.
Qed.

Lemma not_found_answer :
  status_code r = 404 ->
  fst run = Raise (SdkError (if contains "model" endpoint
                            then ModelNotFoundError (VStr "Specified model not found")
                            else DandoloError (VStr ("Endpoint not found: " +:+ endpoint)) None))
  /\ trace (snd run) = [ev].
Proof.
  intros Hs. apply first_answer_raises; [| reflexivity].
  by apply handle_status_404.
Qed.

End Terminal.

(** C4 (as amended): for a method that, upper-cased, is neither GET nor
    POST, [_request] raises in its first iteration, before any HTTP call
    and without retry or sleep; what it raises is the built-in
    [ValueError] naming the method, which is not a [DandoloError] and has
    no code. *)
Theorem C4_unsupported_method_raises_ValueError
    (self : Dandolo) (method endpoint : string) (data : option value)
    (w : world) :
  0 <= max_retries self ->
  ~ supported method ->
  _request self method endpoint data w
  = (Raise (ValueError ("Unsupported HTTP method: " +:+ method)), w)
  /\ is_DandoloError (ValueError ("Unsupported HTTP method: " +:+ method)) = false.
Proof.
  intros Hmax Hmethod. split; [| reflexivity].
  rewrite request_unfold by exact Hmax. by apply loop_unsupported.
Qed.

Lemma C4_witness :
  _request example_client "DELETE" "/v1/models" None (boot (always (reply 200 NoContent)) noon)
  = (Raise (ValueError "Unsupported HTTP method: DELETE"),
     boot (always (reply 200 NoContent)) noon).
Proof.
  apply (C4_unsupported_method_raises_ValueError example_client "DELETE").
  - vm_compute. discriminate.
  - intros [H | H]; discriminate H.
Defined.

(** C4 as stated fails: the error raised for DELETE is no instance of
    the base error type. *)
Lemma C4_counterexample :
  ~ (exists e,
       fst (_request example_client "DELETE" "/v1/models" None
              (boot (always (reply 200 NoContent)) noon)) = Raise e
       /\ is_DandoloError e = true).
Proof.
  intros (e & He & Hd). vm_compute in He. injection He as <-. discriminate Hd.
Qed.

(** C5: a first answer with status 429 should end the call with
    [RateLimitError] carrying the Retry-After header.  It does not when
    the body gives ["error"] as a string or as null: the message is looked
    up in that entry before the error is built, and the call ends, after
    its one attempt, with [AttributeError], which is no [DandoloError]; the
    Retry-After header is lost with it. *)
Theorem C5_rate_limit_lost_to_AttributeError :
  let limited := {| status_code := 429;
                    body := Json (VDict {["error" := VStr "Too many requests"]});
                    headers := {["retry-after" := "30"]} |} in
  let nulled := {| status_code := 429;
                   body := Json (VDict {["error" := VNone]});
                   headers := {["retry-after" := "30"]} |} in
  let run := _request example_client "POST" "/v1/chat/completions" None
               (boot (always limited) noon) in
  let run' := _request example_client "POST" "/v1/chat/completions" None
                (boot (always nulled) noon) in
  fst run = Raise AttributeError
  /\ fst run' = Raise AttributeError
  /\ is_DandoloError AttributeError = false
  /\ attempts (trace (snd run)) = 1%nat
  /\ ~ (exists e, fst run = Raise (SdkError e) /\ cls e = CRateLimitError).
Proof.
  intros limited nulled run run'.
  assert (Hrun : fst run = Raise AttributeError) by (vm_compute; reflexivity).
  split; [exact Hrun |]. split; [vm_compute; reflexivity |].
  split; [reflexivity |]. split; [vm_compute; reflexivity |].
  intros (e & He & _). rewrite Hrun in He. discriminate He.
Qed.

(** C6: a first answer with status 404 ends the call after that one
    attempt, without sleep: with an error of class [ModelNotFoundError]
    (code "model_not_found", message "Specified model not found") when
    ["model"] occurs in the endpoint path, and otherwise with an error of
    the base class [DandoloError] itself, without code, whose message
    names the endpoint. *)
Theorem C6_not_found_depends_on_path
    (self : Dandolo) (method endpoint : string) (data : option value)
    (net : nat -> outcome) (clk : nat -> Z) (r : response) :
  0 <= max_retries self ->
  supported method ->
  net 0%nat = Responds r ->
  status_code r = 404 ->
  let run := _request self method endpoint data (boot net clk) in
  trace (snd run) = [http_event self method endpoint data]
  /\ (occurs_in "model" endpoint ->
      exists e, fst run = Raise (SdkError e)
        /\ cls e = CModelNotFoundError
        /\ message e = VStr "Specified model not found"
        /\ code e = Some "model_not_found"
        /\ retry_after e = None)
  /\ (~ occurs_in "model" endpoint ->
      exists e, fst run = Raise (SdkError e)
        /\ cls e = CDandoloError
        /\ message e = VStr ("Endpoint not found: " +:+ endpoint)
        /\ code e = None
        /\ retry_after e = None).
Proof.
  intros Hmax Hmethod Hfirst Hs run.
  destruct (not_found_answer self method endpoint data net clk r
              Hmax Hmethod Hfirst Hs) as [Hres Htrace].
  split; [exact Htrace |]. split.
  - intros Hin. apply contains_spec in Hin. rewrite Hin in Hres.
    eexists. split; [exact Hres |]. by repeat split.
  - intros Hout. destruct (contains "model" endpoint) eqn:Hc.
    + apply contains_spec in Hc. contradiction.
    + eexists. split; [exact Hres |]. by repeat split.
Qed.

Lemma C6_witness :
  fst (_request example_client "GET" "/v1/models/llama" None
         (boot (always (reply 404 NoContent)) noon))
  = Raise (SdkError (ModelNotFoundError (VStr "Specified model not found")))
  /\ fst (_request example_client "GET" "/v1/usage" None
            (boot (always (reply 404 NoContent)) noon))
     = Raise (SdkError (DandoloError (VStr "Endpoint not found: /v1/usage") None)).
Proof.
  split.
  - destruct (C6_not_found_depends_on_path example_client "GET" "/v1/models/llama"
                None (always (reply 404 NoContent)) noon (reply 404 NoContent))
      as (_ & Hmodel & _).
    + vm_compute. discriminate.
    + left. reflexivity.
    + reflexivity.
    + reflexivity.
    + destruct Hmodel as ([c m k ra] & Hres & Hc & Hm & Hk & Hra).
      * exists "/v1/", "s/llama". reflexivity.
      * cbn in Hc, Hm, Hk, Hra. subst c m k ra. exact Hres.
  - destruct (C6_not_found_depends_on_path example_client "GET" "/v1/usage"
                None (always (reply 404 NoContent)) noon (reply 404 NoContent))
      as (_ & _ & Hother).
    + vm_compute. discriminate.
    + left. reflexivity.
    + reflexivity.
    + reflexivity.
    + destruct Hother as ([c m k ra] & Hres & Hc & Hm & Hk & Hra).
      * intros Hin. apply contains_spec in Hin. discriminate Hin.
      * cbn in Hc, Hm, Hk, Hra. subst c m k ra. exact Hres.
Defined.

(** C7: a first answer with status 400 should end the call with
    [ValidationError], with the default text when the body has no
    [error.message].  It does not when the body gives ["error"] as a string
    or as null: there is no [error.message] then, yet the lookup of
    the message in that entry ends the call, after its one attempt, with
    [AttributeError], which is no [DandoloError]. *)
Theorem C7_validation_lost_to_AttributeError :
  let refused := reply 400 (Json (VDict {["error" := VStr "messages is required"]})) in
  let nulled := reply 400 (Json (VDict {["error" := VNone]})) in
  let run := _request example_client "POST" "/v1/chat/completions" None
               (boot (always refused) noon) in
  let run' := _request example_client "POST" "/v1/chat/completions" None
                (boot (always nulled) noon) in
  body_error_message refused = None
  /\ body_error_message nulled = None
  /\ fst run = Raise AttributeError
  /\ fst run' = Raise AttributeError
  /\ is_DandoloError AttributeError = false
  /\ attempts (trace (snd run)) = 1%nat
  /\ ~ (exists e, fst run = Raise (SdkError e) /\ cls e = CValidationError).
Proof.
  intros refused nulled run run'.
  assert (Hrun : fst run = Raise AttributeError) by (vm_compute; reflexivity).
  split; [reflexivity |]. split; [reflexivity |].
  split; [exact Hrun |]. split; [vm_compute; reflexivity |].
  split; [reflexivity |]. split; [vm_compute; reflexivity |].
  intros (e & He & _). rewrite Hrun in He. discriminate He.
Qed.

(** ** Construction and key validation *)

(** [example_client] is what [__init__] builds from its key and the
    defaults. *)
Lemma example_client_init (w : world) :
  Dandolo_init (Some "ak_0123456789abcdef") default_base_url default_timeout
    default_max_retries default_retry_delay w
  = (Return example_client, w).
Proof. reflexivity. Qed.

(** C8: [Dandolo.__init__] raises [ValueError] for a missing key and for
    every key that starts neither with "dk_" nor with "ak_" (the empty
    key among them), and builds the client for every key with one of the
    two prefixes; in both cases the world is left as it was: no HTTP call
    is made. *)
Theorem C8_key_prefix_checked_at_construction
    (key : option string) (url : string) (tmo retries : Z) (delay : Q) (w : world) :
  (key = None
   \/ (exists k, key = Some k
         /\ ~ (exists rest, k = "dk_" +:+ rest)
         /\ ~ (exists rest, k = "ak_" +:+ rest)) ->
   exists msg, Dandolo_init key url tmo retries delay w = (Raise (ValueError msg), w))
  /\ (forall k, key = Some k ->
        (exists rest, k = "dk_" +:+ rest) \/ (exists rest, k = "ak_" +:+ rest) ->
        exists c, Dandolo_init key url tmo retries delay w = (Return c, w)
          /\ api_key c = k /\ max_retries c = retries /\ retry_delay c = delay).
Proof.
  split.
  - intros [-> | (k & -> & Hdk & Hak)]; [by eexists |].
    rewrite <- startswith_spec in Hdk, Hak.
    apply not_true_is_false in Hdk, Hak.
    destruct k as [| c k]; [by eexists |].
    unfold Dandolo_init. rewrite Hdk, Hak. by eexists.
  - intros k -> Hprefix.
    assert (Hb : startswith k "dk_" || startswith k "ak_" = true).
    { apply orb_true_iff. by rewrite !startswith_spec. }
    destruct k as [| c k].
    + destruct Hprefix as [[rest H] | [rest H]]; discriminate H.
    + unfold Dandolo_init. rewrite Hb. eexists. by repeat split.
Qed.

Lemma C8_witness :
  (exists msg, Dandolo_init (Some "sk_live_42") default_base_url default_timeout
                 default_max_retries default_retry_delay (boot (always (reply 200 NoContent)) noon)
               = (Raise (ValueError msg), boot (always (reply 200 NoContent)) noon))
  /\ (exists c, Dandolo_init (Some "dk_live_42") default_base_url default_timeout
                  default_max_retries default_retry_delay (boot (always (reply 200 NoContent)) noon)
                = (Return c, boot (always (reply 200 NoContent)) noon)
        /\ api_key c = "dk_live_42").
Proof.
  split.
  - apply (C8_key_prefix_checked_at_construction (Some "sk_live_42")).
    right. exists "sk_live_42". split; [reflexivity |].
    split; intros [rest H]; discriminate H.
  - destruct (C8_key_prefix_checked_at_construction (Some "dk_live_42")
                default_base_url default_timeout default_max_retries
                default_retry_delay (boot (always (reply 200 NoContent)) noon))
      as [_ Hok].
    destruct (Hok "dk_live_42") as (c & Hc & Hk & _).
    + reflexivity.
    + left. exists "live_42". reflexivity.
    + exists c. by split.
Defined.

(** C9: when the model-list request of [validate_key] succeeds, the
    report has [is_valid] true and a [key_type] that is "agent" exactly
    when the configured key starts with "ak_" and "developer" otherwise,
    whatever the server answered; when that request raises an error of the
    [DandoloError] family, the report has [is_valid] false and the four
    other entries [None]. *)
Theorem C9_validate_key_report (self : Dandolo) (w : world) :
  (forall v w',
     _request self "GET" "/v1/models" None w = (Return v, w') ->
     exists report, validate_key self w = (Return report, w')
       /\ report !! "is_valid" = Some (VBool true)
       /\ ((exists rest, api_key self = "ak_" +:+ rest) ->
           report !! "key_type" = Some (VStr "agent"))
       /\ (~ (exists rest, api_key self = "ak_" +:+ rest) ->
           report !! "key_type" = Some (VStr "developer")))
  /\ (forall e w',
        _request self "GET" "/v1/models" None w = (Raise (SdkError e), w') ->
        exists report, validate_key self w = (Return report, w')
          /\ report !! "is_valid" = Some (VBool false)
          /\ report !! "key_type" = Some VNone
          /\ report !! "daily_usage" = Some VNone
          /\ report !! "daily_limit" = Some VNone
          /\ report !! "remaining" = Some VNone).
Proof.
  split.
  - intros v w' Hreq. unfold validate_key, try_except, bind. rewrite Hreq.
    eexists. split; [reflexivity |]. split; [reflexivity |].
    rewrite <- startswith_spec.
    destruct (startswith (api_key self) "ak_"); split; intros H;
      first [reflexivity | congruence].
  - intros e w' Hreq. unfold validate_key, try_except, bind. rewrite Hreq.
    eexists. split; [reflexivity |]. by repeat split.
Qed.

Lemma C9_witness :
  let catalogue := reply 200 (Json (VDict {["data" := VList []]})) in
  (exists report w',
     validate_key example_client (boot (always catalogue) noon) = (Return report, w')
     /\ report !! "is_valid" = Some (VBool true)
     /\ report !! "key_type" = Some (VStr "agent"))
  /\ (exists report w',
        validate_key example_client (boot (always (reply 401 NoContent)) noon)
        = (Return report, w')
        /\ report !! "is_valid" = Some (VBool false)
        /\ report !! "key_type" = Some VNone).
Proof.
  intros catalogue. split.
  - destruct (C9_validate_key_report example_client (boot (always catalogue) noon))
      as [Hok _].
    edestruct Hok as (report & Hrun & Hvalid & Hagent & _).
    + vm_compute. reflexivity.
    + exists report. eexists. split; [exact Hrun |]. split; [exact Hvalid |].
      apply Hagent. exists "0123456789abcdef". reflexivity.
  - destruct (C9_validate_key_report example_client
                (boot (always (reply 401 NoContent)) noon)) as [_ Hbad].
    edestruct Hbad as (report & Hrun & Hvalid & Htype & _).
    + vm_compute. reflexivity.
    + exists report. eexists. split; [exact Hrun |]. by split.
Defined.

(** ** Model listing *)

Lemma Model_new_shaped (el : value) (w : world) :
  model_shaped el ->
  exists m,
    Model.new el w = (Return m, if lacks_created el then record_tick w else w)
    /\ built_from (clock w (ticks w)) el m.
Proof.
  intros (d & -> & Hkeys & [i Hid]). unfold Model.new.
  rewrite (bool_decide_eq_true_2 _ Hkeys). rewrite Hid.
  unfold bind, built_from, lacks_created.
  destruct (d !! "created") as [[] |] eqn:Hc; cbn;
    eexists; (split; [reflexivity |]);
    exists d; repeat split; try done; by rewrite Hc.
Qed.

Lemma Model_new_unshaped (el : value) (w : world) :
  ~ model_shaped el -> Model.new el w = (Raise TypeError, w).
Proof.
  intros Hno. unfold Model.new. destruct el; try reflexivity.
  destruct (bool_decide (map_Forall _ d)) eqn:Hkeys; [| reflexivity].
  apply bool_decide_eq_true_1 in Hkeys.
  destruct (d !! "id") as [i |] eqn:Hid; [| reflexivity].
  exfalso. apply Hno. exists d. split; [reflexivity |]. by split.
Qed.

Lemma model_shaped_dec (el : value) : model_shaped el \/ ~ model_shaped el.
Proof.
  destruct el as [| | | | | | d];
    try (right; intros (d & H & _); discriminate H).
  destruct (decide (map_Forall (fun k _ => k ∈ Model.fields) d)) as [Hkeys | Hkeys].
  - destruct (d !! "id") as [i |] eqn:Hid.
    + left. exists d. split; [reflexivity |]. split; [exact Hkeys | by eexists].
    + right. intros (d' & H & _ & [i Hi]). injection H as <-. congruence.
  - right. intros (d' & H & Hk & _). injection H as <-. contradiction.
Qed.

Lemma after_readings_0 (w : world) : after_readings 0 w = w.
Proof. destruct w. unfold after_readings. cbn. f_equal. lia. Qed.

(** The comprehension over model-shaped elements returns one record per
    element, the [i]-th built at the clock reading that the elements
    before it left. *)
Lemma comprehension_models (els : list value) : forall w,
  Forall model_shaped els ->
  exists ms,
    comprehension Model.new els w = (Return ms, after_readings (clock_readings els) w)
    /\ length ms = length els
    /\ (forall i el, els !! i = Some el ->
          exists m, ms !! i = Some m
            /\ built_from (clock w (ticks w + clock_readings (take i els))) el m).
Proof.
  induction els as [| el els IH]; intros w Hall.
  - exists []. rewrite after_readings_0. by repeat split.
  - inversion Hall as [| ? ? Hel Hels]; subst.
    destruct (Model_new_shaped el w Hel) as (m & Hm & Hb).
    destruct (IH (if lacks_created el then record_tick w else w) Hels)
      as (ms & Hms & Hlen & Hbs).
    exists (m :: ms). cbn [comprehension]. unfold bind at 1. rewrite Hm.
    unfold bind at 1. rewrite Hms. split; [| split].
    + unfold ret, clock_readings. cbn [List.filter]. f_equal.
      destruct (lacks_created el); [| reflexivity].
      unfold after_readings, record_tick. cbn. f_equal. lia.
    + cbn. by rewrite Hlen.
    + intros [| i] el' Hi.
      * injection Hi as <-. exists m. split; [reflexivity |].
        cbn. by rewrite Nat.add_0_r.
      * cbn in Hi. destruct (Hbs i el' Hi) as (m' & Hm' & Hb').
        exists m'. split; [exact Hm' |].
        unfold clock_readings in *. cbn [take List.filter].
        destruct (lacks_created el); cbn in *;
          [by replace (ticks w + S (length (List.filter lacks_created (take i els))))%nat
                with (S (ticks w) + length (List.filter lacks_created (take i els)))%nat
                by lia
          | exact Hb'].
Qed.

(** An element that is not model-shaped stops the comprehension. *)
Lemma comprehension_rejects (els : list value) : forall w,
  ~ Forall model_shaped els ->
  exists w', comprehension Model.new els w = (Raise TypeError, w')
    /\ trace w' = trace w.
Proof.
  induction els as [| el els IH]; intros w Hnot.
  - exfalso. apply Hnot. constructor.
  - cbn [comprehension]. unfold bind at 1.
    destruct (model_shaped_dec el) as [Hel | Hel].
    + destruct (Model_new_shaped el w Hel) as (m & Hm & _).
      rewrite Hm. unfold bind at 1.
      destruct (IH (if lacks_created el then record_tick w else w)) as (w2 & Hw2 & Htr2).
      * intros Hels. apply Hnot. by constructor.
      * rewrite Hw2. exists w2. split; [reflexivity |].
        rewrite Htr2. by destruct (lacks_created el).
    + rewrite (Model_new_unshaped el w Hel). by exists w.
Qed.

Lemma Model_new_trace (el : value) (w : world) :
  trace (snd (Model.new el w)) = trace w.
Proof.
  destruct (model_shaped_dec el) as [Hel | Hel].
  - destruct (Model_new_shaped el w Hel) as (m & Hm & _).
    rewrite Hm. by destruct (lacks_created el).
  - by rewrite (Model_new_unshaped el w Hel).
Qed.

Lemma comprehension_trace (els : list value) : forall w,
  trace (snd (comprehension Model.new els w)) = trace w.
Proof.
  induction els as [| el els IH]; intros w; [reflexivity |].
  cbn [comprehension]. unfold bind at 1.
  pose proof (Model_new_trace el w) as Hel.
  destruct (Model.new el w) as [[m | e] w1]; cbn in Hel; [| exact Hel].
  unfold bind at 1. specialize (IH w1).
  destruct (comprehension Model.new els w1) as [[ms | e] w2]; cbn in *; congruence.
Qed.

(** C10 (as amended): for a first answer with status 200 whose body
    decodes to a JSON object, [Models.list] makes the one GET and
    returns the empty list when the object has no ["data"] entry; when
    ["data"] is a list of objects that each have an ["id"] and no entry
    other than id, object, created, owned_by, type and context_length, it
    returns one [Model] per element, in the same order, each built from
    the entries of its element: an absent entry leaves the default of the
    dataclass, and an absent or null [created] takes the reading of the
    clock at that element (the first such element the first reading, the
    next the second, and so on). *)
Theorem C10_models_list_maps_data
    (self : Dandolo) (net : nat -> outcome) (clk : nat -> Z)
    (r : response) (d : gmap string value) :
  0 <= max_retries self ->
  net 0%nat = Responds r ->
  status_code r = 200 ->
  body r = Json (VDict d) ->
  let run := Models.list self (boot net clk) in
  trace (snd run) = [EvGet (base_url self +:+ "/v1/models") (timeout self)]
  /\ (d !! "data" = None -> fst run = Return [])
  /\ (forall els, d !! "data" = Some (VList els) ->
        Forall model_shaped els ->
        exists ms, fst run = Return ms
          /\ length ms = length els
          /\ (forall i el, els !! i = Some el ->
                exists m, ms !! i = Some m
                  /\ built_from (clk (clock_readings (take i els))) el m)).
Proof.
  intros Hmax Hr Hs Hv run.
  assert (Hreq : _request self "GET" "/v1/models" None (boot net clk)
                 = (Return (VDict d),
                    record_call (EvGet (base_url self +:+ "/v1/models") (timeout self))
                      (boot net clk))).
  { apply (request_first_200 self "GET" "/v1/models" None (boot net clk) r);
      [exact Hmax | by left | exact Hr | exact Hs | exact Hv]. }
  assert (Hrun : forall data, default (VList []) (d !! "data") = data ->
            run = match py_iter data with
                  | Return els =>
                      comprehension Model.new els
                        (record_call (EvGet (base_url self +:+ "/v1/models") (timeout self))
                           (boot net clk))
                  | Raise e =>
                      (Raise e,
                       record_call (EvGet (base_url self +:+ "/v1/models") (timeout self))
                         (boot net clk))
                  end).
  { intros data <-. unfold run, Models.list. unfold bind at 1. rewrite Hreq.
    unfold bind at 1, lift, py_get. unfold default, bind.
    by destruct (py_iter _). }
  split; [| split].
  - rewrite (Hrun _ eq_refl). destruct (py_iter _); [| reflexivity].
    by rewrite comprehension_trace.
  - intros Hnone. rewrite (Hrun (VList [])); [reflexivity | by rewrite Hnone].
  - intros els Hdata Hall. rewrite (Hrun (VList els)) by (by rewrite Hdata).
    cbn [py_iter].
    destruct (comprehension_models els
                (record_call (EvGet (base_url self +:+ "/v1/models") (timeout self))
                   (boot net clk)) Hall) as (ms & Hms & Hlen & Hbuilt).
    exists ms. rewrite Hms. split; [reflexivity |].
    split; [exact Hlen | exact Hbuilt].
Qed.

Lemma C10_witness :
  let first := VDict {["id" := VStr "llama-3"]} in
  let second := VDict (<["owned_by" := VStr "venice"]>
                       (<["created" := VInt 1712000000]> {["id" := VStr "qwen-2"]})) in
  let third := VDict (<["created" := VNone]> {["id" := VStr "mistral"]}) in
  let catalogue := reply 200 (Json (VDict {["data" := VList [first; second; third]]})) in
  let ticking := fun k : nat => 1700000000 + Z.of_nat k in
  (exists ms, fst (Models.list example_client (boot (always catalogue) ticking)) = Return ms
     /\ length ms = 3%nat
     /\ (exists m, ms !! 0%nat = Some m /\ Model.created m = VInt 1700000000)
     /\ (exists m, ms !! 1%nat = Some m /\ Model.created m = VInt 1712000000)
     /\ (exists m, ms !! 2%nat = Some m /\ Model.created m = VInt 1700000001))
  /\ fst (Models.list example_client (boot (always (reply 200 (Json (VDict ∅)))) noon))
     = Return [].
Proof.
  intros first second third catalogue ticking. split.
  - destruct (C10_models_list_maps_data example_client (always catalogue) ticking
                catalogue {["data" := VList [first; second; third]]})
      as (_ & _ & Hlist).
    + vm_compute. discriminate.
    + reflexivity.
    + reflexivity.
    + reflexivity.
    + destruct (Hlist [first; second; third]) as (ms & Hms & Hlen & Hbuilt);
        [reflexivity | |].
      * apply List.Forall_cons;
          [| apply List.Forall_cons; [| apply List.Forall_cons; [| apply List.Forall_nil]]].
        all: eexists; (split; [reflexivity |]); split.
        all: try (refine (bool_decide_unpack _ _); vm_compute; exact I).
        all: eexists; vm_compute; reflexivity.
      * exists ms. split; [exact Hms |]. split; [exact Hlen |].
        split; [| split].
        -- destruct (Hbuilt 0%nat first eq_refl) as (m & Hm & d & Hd & _ & _ & Hc & _).
           injection Hd as <-. exists m. split; [exact Hm | exact Hc].
        -- destruct (Hbuilt 1%nat second eq_refl) as (m & Hm & d & Hd & _ & _ & Hc & _).
           injection Hd as <-. exists m. split; [exact Hm | exact Hc].
        -- destruct (Hbuilt 2%nat third eq_refl) as (m & Hm & d & Hd & _ & _ & Hc & _).
           injection Hd as <-. exists m. split; [exact Hm | exact Hc].
  - destruct (C10_models_list_maps_data example_client
                (always (reply 200 (Json (VDict ∅)))) noon
                (reply 200 (Json (VDict ∅))) ∅)
      as (_ & Hnone & _).
    + vm_compute. discriminate.
    + reflexivity.
    + reflexivity.
    + reflexivity.
    + apply Hnone. reflexivity.
Defined.

(** C10 as stated fails: one element with an entry that is no field of
    [Model] makes the listing raise instead of returning one record per
    element. *)
Lemma C10_counterexample :
  let described := VDict (<["description" := VStr "A large model"]>
                          {["id" := VStr "llama-3"]}) in
  let catalogue := reply 200 (Json (VDict {["data" := VList [described]]})) in
  let run := Models.list example_client (boot (always catalogue) noon) in
  fst run = Raise TypeError
  /\ ~ (exists ms, fst run = Return ms /\ length ms = 1%nat).
Proof.
  intros described catalogue run.
  assert (Hrun : fst run = Raise TypeError) by (vm_compute; reflexivity).
  split; [exact Hrun |]. intros (ms & Hms & _). rewrite Hrun in Hms. discriminate Hms.
Qed.

(** ** Chat completions *)

Lemma required_fields_keys (a : ChatCompletions.arguments) (k : string) (v : value) :
  ChatCompletions.required_fields a !! k = Some v ->
  k ∈ ChatCompletions.parameters.
Proof.
  unfold ChatCompletions.required_fields, ChatCompletions.parameters.
  destruct (ChatCompletions.is_not_None (ChatCompletions.max_tokens a));
    destruct (ChatCompletions.is_not_None (ChatCompletions.temperature a));
    intros H;
    repeat (apply lookup_insert_Some in H as [[<- _] | [_ H]];
            [set_solver |]);
    by rewrite lookup_empty in H.
Qed.

Lemma bind_call_kwargs (pos : list value) (kw : gmap string value)
    (a : ChatCompletions.arguments) :
  ChatCompletions.bind_call pos kw = Return a ->
  ChatCompletions.kwargs a
  = filter (fun kv => kv.1 ∉ ChatCompletions.parameters) kw.
Proof.
  unfold ChatCompletions.bind_call. intros H.
  repeat case_match; simplify_eq; reflexivity.
Qed.

(** The keywords left over by the binding never name a parameter, so
    they never meet a key of the required fields. *)
Lemma kwargs_disjoint (pos : list value) (kw : gmap string value)
    (a : ChatCompletions.arguments) :
  ChatCompletions.bind_call pos kw = Return a ->
  ChatCompletions.kwargs a ##ₘ ChatCompletions.required_fields a.
Proof.
  intros Hb. rewrite (bind_call_kwargs _ _ _ Hb).
  apply map_disjoint_spec. intros k x y Hx Hy.
  apply map_lookup_filter_Some in Hx as [_ Hx]. cbn in Hx.
  apply Hx. by eapply required_fields_keys.
Qed.

(** A keyword that names a parameter is that parameter, and a parameter
    given both by position and by keyword is refused. *)
Lemma bind_call_keyword_is_parameter :
  let hello := VList [VDict (<["content" := VStr "Hello!"]> {["role" := VStr "user"]})] in
  (exists a, ChatCompletions.bind_call [hello] {["model" := VStr "llama-3"]} = Return a
     /\ ChatCompletions.model a = VStr "llama-3"
     /\ ChatCompletions.kwargs a = ∅)
  /\ ChatCompletions.bind_call [hello; VStr "auto-select"] {["model" := VStr "llama-3"]}
     = Raise TypeError.
Proof.
  intros hello. split; [| reflexivity].
  eexists. split; [vm_compute; reflexivity |]. split; reflexivity.
Qed.

(** C2: for every call of [create] that Python binds, the request body
    handed to the dispatcher is the mapping of the required fields
    ([model], [messages], [stream], and [max_tokens] and [temperature]
    when they are not [None]) merged with the extra keyword arguments, a
    key of the required fields keeping the required value. *)
Theorem C2_request_body_merges_extra_keywords
    (pos : list value) (kw : gmap string value) (a : ChatCompletions.arguments) :
  ChatCompletions.bind_call pos kw = Return a ->
  let required := ChatCompletions.required_fields a in
  let extra := ChatCompletions.kwargs a in
  let sent_body := ChatCompletions.request_body a in
  extra = filter (fun kv => kv.1 ∉ ChatCompletions.parameters) kw
  /\ required !! "model" = Some (ChatCompletions.model a)
  /\ required !! "messages" = Some (ChatCompletions.messages a)
  /\ required !! "stream" = Some (ChatCompletions.stream a)
  /\ required !! "max_tokens"
     = (if ChatCompletions.is_not_None (ChatCompletions.max_tokens a)
        then Some (ChatCompletions.max_tokens a) else None)
  /\ required !! "temperature"
     = (if ChatCompletions.is_not_None (ChatCompletions.temperature a)
        then Some (ChatCompletions.temperature a) else None)
  /\ sent_body = required ∪ extra
  /\ (forall k v, required !! k = Some v -> sent_body !! k = Some v)
  /\ (forall k, required !! k = None -> sent_body !! k = extra !! k)
  /\ (forall self w,
        ChatCompletions.call_create self pos kw w
        = _request self "POST" "/v1/chat/completions" (Some (VDict sent_body)) w).
Proof.
  intros Hb required extra sent_body.
  assert (Hbody : sent_body = required ∪ extra).
  { unfold sent_body, ChatCompletions.request_body, dict_update.
    apply map_union_comm. by eapply kwargs_disjoint. }
  split; [by eapply bind_call_kwargs |].
  repeat split.
  - unfold required, ChatCompletions.required_fields.
    by repeat case_match.
  - unfold required, ChatCompletions.required_fields.
    by repeat case_match.
  - unfold required, ChatCompletions.required_fields.
    by repeat case_match.
  - unfold required, ChatCompletions.required_fields.
    by repeat case_match.
  - unfold required, ChatCompletions.required_fields.
    by repeat case_match.
  - exact Hbody.
  - intros k v Hk. rewrite Hbody. by apply lookup_union_Some_l.
  - intros k Hk. rewrite Hbody. by apply lookup_union_r.
  - intros self w. unfold ChatCompletions.call_create, bind, lift.
    by rewrite Hb.
Qed.

(** [dict.update] itself lets the new entries win; it is the binding of
    the call that keeps the extra keywords away from the required keys. *)
Lemma dict_update_lookup (d other : gmap string value) (k : string) :
  dict_update d other !! k
  = match other !! k with
    | Some v => Some v
    | None => d !! k
    end.
Proof.
  unfold dict_update. rewrite lookup_union.
  destruct (other !! k), (d !! k); reflexivity.
Qed.

Lemma C2_witness :
  let hello := VList [VDict (<["content" := VStr "Hello!"]> {["role" := VStr "user"]})] in
  let kw : gmap string value :=
    <["seed" := VInt 7]> (<["max_tokens" := VInt 50]> {["model" := VStr "llama-3"]}) in
  exists a, ChatCompletions.bind_call [hello] kw = Return a
    /\ ChatCompletions.kwargs a = {["seed" := VInt 7]}
    /\ ChatCompletions.request_body a
       = ChatCompletions.required_fields a ∪ ChatCompletions.kwargs a
    /\ ChatCompletions.request_body a !! "model" = Some (VStr "llama-3")
    /\ ChatCompletions.request_body a !! "max_tokens" = Some (VInt 50)
    /\ ChatCompletions.request_body a !! "seed" = Some (VInt 7)
    /\ ChatCompletions.request_body a !! "temperature" = None.
Proof.
  intros hello kw.
  pose (a := {| ChatCompletions.messages := hello;
                ChatCompletions.model := VStr "llama-3";
                ChatCompletions.max_tokens := VInt 50;
                ChatCompletions.temperature := VNone;
                ChatCompletions.stream := VBool false;
                ChatCompletions.kwargs := {["seed" := VInt 7]} |}).
  assert (Hb : ChatCompletions.bind_call [hello] kw = Return a)
    by (vm_compute; reflexivity).
  exists a. split; [exact Hb |]. split; [reflexivity |].
  destruct (C2_request_body_merges_extra_keywords [hello] kw a Hb)
    as (_ & Hmodel & _ & _ & Hmax & Htemp & Hbody & Hreq & Hextra & _).
  split; [exact Hbody |].
  split; [apply Hreq; exact Hmodel |].
  split; [apply Hreq; exact Hmax |].
  split.
  - rewrite Hextra; [reflexivity | vm_compute; reflexivity].
  - rewrite Hextra; [reflexivity | exact Htemp].
Defined.

(** The answer of a successful first attempt is what [create] returns,
    as the dispatcher decoded it. *)
Lemma create_returns_payload (self : Dandolo) (a : ChatCompletions.arguments)
    (net : nat -> outcome) (clk : nat -> Z) (r : response) (v : value) :
  0 <= max_retries self ->
  net 0%nat = Responds r ->
  status_code r = 200 ->
  body r = Json v ->
  fst (ChatCompletions.create self a (boot net clk)) = Return v.
Proof.
  intros Hmax Hr Hs Hv. unfold ChatCompletions.create.
  by rewrite (request_first_200 self "POST" _ _ (boot net clk) r v Hmax
                (or_intror eq_refl) Hr Hs Hv).
Qed.

(** C1 (evaluation): on the scenario of the specification, a 200 answer
    with one choice whose message content is "hi", [create] returns the
    decoded JSON object itself.  No [ChatCompletion], [Choice] or
    [ChatMessage] record is built from it: the result is the [dict], with
    ["choices"] still a list of dicts. *)
Theorem C1_create_returns_undecoded_json :
  let choice := VDict (<["message" := VDict (<["content" := VStr "hi"]>
                                             {["role" := VStr "assistant"]})]>
                       {["index" := VInt 0]}) in
  let payload := VDict (<["id" := VStr "x"]> {["choices" := VList [choice]]}) in
  let hello := VList [VDict (<["content" := VStr "Hello!"]> {["role" := VStr "user"]})] in
  fst (ChatCompletions.call_create example_client [] {["messages" := hello]}
         (boot (always (reply 200 (Json payload))) noon))
  = Return payload.
Proof.
  intros choice payload hello.
  unfold ChatCompletions.call_create, bind, lift.
  assert (Hb : exists a, ChatCompletions.bind_call [] {["messages" := hello]} = Return a)
    by (eexists; vm_compute; reflexivity).
  destruct Hb as [a ->].
  apply (create_returns_payload example_client a _ noon (reply 200 (Json payload)));
    [vm_compute; discriminate | reflexivity | reflexivity | reflexivity].
Qed.

(** * Further properties *)

(** ** Every run of the dispatcher *)

Lemma attempt_once_fails (self : Dandolo) (method endpoint : string)
    (data : option value) (attempt : Z) (w : world) (e : requests_exception) :
  supported method ->
  transport w (sent w) = Fails e ->
  attempt_once self method endpoint data attempt w
  = (Raise (Requests e), record_call (http_event self method endpoint data) w).
Proof.
  intros Hs Hr. unfold attempt_once, bind, http_event.
  destruct Hs as [Hm | Hm]; rewrite Hm; simpl;
    unfold session_get, session_post, perform; by rewrite Hr.
Qed.

Lemma error_message_escapes (r : response) (dflt : value) (e : exn) :
  error_message r dflt = Raise e -> e = JSONDecodeError \/ e = AttributeError.
Proof.
  unfold error_message, response_json, py_get. intros H.
  repeat case_match; simplify_eq; auto.
Qed.

(** The backoff sleep either happens, or raises before anything is
    recorded. *)
Lemma back_off_cases (self : Dandolo) (attempt : Z) (w : world) :
  back_off self attempt w = (Return tt, record_sleep (backoff self attempt) w)
  \/ (exists e, back_off self attempt w = (Raise e, w)
                /\ may_escape e = true
                /\ forall a, transport_handlers self a e = None).
Proof.
  unfold back_off, backoff_delay, sleep.
  destruct (attempt <? 1024); [| right; eexists; by repeat split].
  destruct (negb _); [right; eexists; by repeat split |].
  destruct (negb _); [right; eexists; by repeat split |].
  by left.
Qed.

(** What the status chain can do with an answer: return its payload,
    raise, or sleep and ask for another attempt, the last only within the
    budget. *)
Lemma handle_status_cases (self : Dandolo) (endpoint : string) (attempt : Z)
    (r : response) (w : world) :
  (exists v, handle_status self endpoint attempt r w = (Return (Done v), w)
             /\ status_code r = 200)
  \/ (exists e, handle_status self endpoint attempt r w = (Raise e, w)
                /\ may_escape e = true
                /\ transport_handlers self attempt e = None)
  \/ (handle_status self endpoint attempt r w
      = (Return Continue, record_sleep (backoff self attempt) w)
      /\ attempt < max_retries self /\ 500 <= status_code r).
Proof.
  unfold handle_status.
  destruct (Z.eqb_spec (status_code r) 200) as [H200 | _].
  { unfold bind, lift. destruct (response_json r) as [v | e] eqn:Hj.
    - left. by exists v.
    - right. left. exists e. unfold response_json in Hj.
      repeat case_match; simplify_eq; by repeat split. }
  destruct (Z.eqb_spec (status_code r) 401) as [_ | _].
  { right. left. eexists. by repeat split. }
  destruct (Z.eqb_spec (status_code r) 429) as [_ | _].
  { unfold bind, lift. right. left.
    destruct (error_message r _) as [m | e] eqn:Hm.
    - eexists. by repeat split.
    - exists e. destruct (error_message_escapes _ _ _ Hm) as [-> | ->]; by repeat split. }
  destruct (Z.eqb_spec (status_code r) 404) as [_ | _].
  { right. left. destruct (contains "model" endpoint); eexists; by repeat split. }
  destruct (Z.eqb_spec (status_code r) 400) as [_ | _].
  { unfold bind, lift. right. left.
    destruct (error_message r _) as [m | e] eqn:Hm.
    - eexists. by repeat split.
    - exists e. destruct (error_message_escapes _ _ _ Hm) as [-> | ->]; by repeat split. }
  destruct (Z.geb_spec (status_code r) 500) as [H500 | _].
  { destruct (Z.ltb_spec attempt (max_retries self)) as [Hlt | _].
    - unfold bind.
      destruct (back_off_cases self attempt w) as [Hb | (e & Hb & He & Hno)];
        rewrite Hb.
      + right. right. by repeat split.
      + right. left. exists e. by repeat split.
    - right. left. eexists. by repeat split. }
  unfold bind, lift. right. left.
  destruct (error_message r _) as [m | e] eqn:Hm.
  - eexists. by repeat split.
  - exists e. destruct (error_message_escapes _ _ _ Hm) as [-> | ->]; by repeat split.
Qed.

Section Iteration.

Variable self : Dandolo.
Variables method endpoint : string.
Variable data : option value.
Hypothesis Hmethod : supported method.

Local Abbreviation ev := (http_event self method endpoint data).
Local Abbreviation iteration :=
  (fun attempt => try_except (attempt_once self method endpoint data attempt)
                    (transport_handlers self attempt)).

(** One iteration of the loop makes one HTTP call and then returns,
    raises, or sleeps the backoff of this attempt and continues. *)
Lemma iteration_cases (attempt : Z) (w : world) :
  (exists v, iteration attempt w = (Return (Done v), record_call ev w))
  \/ (exists e, iteration attempt w = (Raise e, record_call ev w)
                /\ may_escape e = true)
  \/ (iteration attempt w
      = (Return Continue, record_sleep (backoff self attempt) (record_call ev w))
      /\ attempt < max_retries self).
Proof.
  unfold try_except.
  destruct (transport w (sent w)) as [r | e] eqn:Hnet.
  - rewrite (attempt_once_responds self method endpoint data attempt w r Hmethod Hnet).
    destruct (handle_status_cases self endpoint attempt r (record_call ev w))
      as [(v & Hh & _) | [(e & Hh & He & Hno) | (Hh & Hlt & _)]]; rewrite Hh.
    + left. by exists v.
    + right. left. exists e. by rewrite Hno.
    + right. right. by split.
  - rewrite (attempt_once_fails self method endpoint data attempt w e Hmethod Hnet).
    destruct e; cbn [transport_handlers].
    + destruct (Z.ltb_spec attempt (max_retries self)) as [Hlt | _].
      * unfold bind.
        destruct (back_off_cases self attempt (record_call ev w))
          as [Hb | (e & Hb & He & _)]; rewrite Hb.
        -- right. right. by split.
        -- right. left. exists e. by split.
      * right. left. eexists. by split.
    + destruct (Z.ltb_spec attempt (max_retries self)) as [Hlt | _].
      * unfold bind.
        destruct (back_off_cases self attempt (record_call ev w))
          as [Hb | (e & Hb & He & _)]; rewrite Hb.
        -- right. right. by split.
        -- right. left. exists e. by split.
      * right. left. eexists. by split.
    + right. left. eexists. by split.
Qed.

Lemma request_loop_step (n : nat) (attempt : Z) (w : world) :
  request_loop self method endpoint data (S n) attempt w
  = match iteration attempt w with
    | (Return (Done v), w') => (Return v, w')
    | (Return Continue, w') =>
        request_loop self method endpoint data n (attempt + 1) w'
    | (Raise e, w') => (Raise e, w')
    end.
Proof.
  cbn [request_loop]. unfold bind.
  by destruct (try_except _ _ w) as [[[v |] | e] w'].
Qed.

(** The shape of every trace: with [n] iterations left that end the
    budget, the loop makes [j + 1] calls for some [j < n], sleeping the
    scheduled backoff after each call but the last. *)
Lemma request_loop_trace (n : nat) : forall (k : nat) (w : world),
  (0 < n)%nat ->
  Z.of_nat k + Z.of_nat n = max_retries self + 1 ->
  exists j, (j < n)%nat
    /\ trace (snd (request_loop self method endpoint data n (Z.of_nat k) w))
       = trace w ++ retries self ev k j ++ [ev]
    /\ sent (snd (request_loop self method endpoint data n (Z.of_nat k) w))
       = (sent w + S j)%nat.
Proof.
  induction n as [| n IH]; intros k w Hn Hk; [lia |].
  rewrite request_loop_step.
  destruct (iteration_cases (Z.of_nat k) w)
    as [(v & Hit) | [(e & Hit & _) | (Hit & Hlt)]]; rewrite Hit.
  - exists 0%nat. cbn. repeat split; first [reflexivity | lia].
  - exists 0%nat. cbn. repeat split; first [reflexivity | lia].
  - replace (Z.of_nat k + 1) with (Z.of_nat (S k)) by lia.
    destruct (IH (S k) (record_sleep (backoff self (Z.of_nat k)) (record_call ev w)))
      as (j & Hj & Htr & Hsent); [lia | lia |].
    exists (S j). split; [lia |]. rewrite Htr, Hsent. cbn.
    split; [by rewrite <- !app_assoc | lia].
Qed.

(** Whatever ends the loop in an exception, that exception is of the
    kinds [may_escape] lists. *)
Lemma request_loop_escapes (n : nat) : forall (attempt : Z) (w : world) (e : exn),
  fst (request_loop self method endpoint data n attempt w) = Raise e ->
  may_escape e = true.
Proof.
  induction n as [| n IH]; intros attempt w e.
  - cbn. intros [= <-]. reflexivity.
  - rewrite request_loop_step.
    destruct (iteration_cases attempt w)
      as [(v & Hit) | [(e' & Hit & He') | (Hit & _)]]; rewrite Hit.
    + cbn. discriminate.
    + cbn. by intros [= <-].
    + apply IH.
Qed.




End Iteration.

(** X1: whatever the network does, a [_request] call with a supported
    method and a non-negative [max_retries] leaves a trace of [j + 1] HTTP
    calls for some [j <= max_retries], each call but the last followed by
    the backoff sleep of its attempt: never more than [max_retries + 1]
    calls, never a sleep after the last call, never a sleep that is not
    [retry_delay * 2^k] for the attempt [k] it follows. *)
Theorem X1_every_trace_is_a_backoff_schedule
    (self : Dandolo) (method endpoint : string) (data : option value) (w : world) :
  0 <= max_retries self ->
  supported method ->
  let ev := http_event self method endpoint data in
  let run := _request self method endpoint data w in
  exists j, (j <= Z.to_nat (max_retries self))%nat
    /\ trace (snd run) = trace w ++ retries self ev 0 j ++ [ev]
    /\ sent (snd run) = (sent w + S j)%nat
    /\ attempts (trace (snd run)) = (attempts (trace w) + S j)%nat
    /\ sleeps (trace (snd run))
       = sleeps (trace w) ++ map (fun k => backoff self (Z.of_nat k)) (seq 0 j).
Proof.
  intros Hmax Hmethod ev run. unfold run. rewrite request_unfold by exact Hmax.
  destruct (request_loop_trace self method endpoint data Hmethod
              (S (Z.to_nat (max_retries self))) 0 w) as (j & Hj & Htr & Hsent);
    [lia | lia |].
  change (Z.of_nat 0) with 0 in Htr, Hsent.
  exists j. split; [lia |]. split; [exact Htr |]. split; [exact Hsent |].
  rewrite Htr. fold ev.
  assert (Hev : is_call ev = true) by apply is_call_http_event.
  split.
  - unfold attempts. rewrite List.filter_app, length_app. fold (attempts (trace w)).
    fold (attempts (retries self ev 0 j ++ [ev])).
    rewrite attempts_retries by exact Hev. unfold attempts. cbn [List.filter].
    rewrite Hev. cbn. lia.
  - unfold sleeps. rewrite omap_app. fold (sleeps (trace w)).
    fold (sleeps (retries self ev 0 j ++ [ev])).
    rewrite sleeps_retries by exact Hev. unfold sleeps.
    destruct ev; try discriminate; cbn; by rewrite app_nil_r.
Qed.

Lemma X1_witness :
  let flaky := fun k : nat =>
    match k with
    | 0%nat => Fails ReqTimeout
    | 1%nat => Responds (reply 502 NoContent)
    | _ => Responds (reply 403 NoContent)
    end in
  exists j, (j <= 3)%nat
    /\ attempts (trace (snd (_request example_client "GET" "/v1/models" None
                                (boot flaky noon)))) = S j.
Proof.
  intros flaky.
  destruct (X1_every_trace_is_a_backoff_schedule example_client "GET" "/v1/models"
              None (boot flaky noon)) as (j & Hj & _ & _ & Hcalls & _).
  - vm_compute. discriminate.
  - left. reflexivity.
  - exists j. split; [exact Hj | exact Hcalls].
Defined.

Lemma supported_dec (method : string) : supported method \/ ~ supported method.
Proof.
  unfold supported.
  destruct (String.eqb_spec (upper method) "GET"); [by left; left |].
  destruct (String.eqb_spec (upper method) "POST"); [by left; right |].
  right. tauto.
Qed.

Lemma request_escapes (self : Dandolo) (method endpoint : string)
    (data : option value) (w : world) (e : exn) :
  fst (_request self method endpoint data w) = Raise e ->
  may_escape e = true.
Proof.
  unfold _request. destruct (supported_dec method) as [Hs | Hs].
  - by apply request_loop_escapes.
  - destruct (Z.to_nat (max_retries self + 1)) as [| n].
    + cbn. by intros [= <-].
    + rewrite loop_unsupported by exact Hs. cbn. by intros [= <-].
Qed.

(** X2: every SDK error that leaves [_request] is of the base class or
    of one of the four subclasses [AuthenticationError], [RateLimitError],
    [ModelNotFoundError], [ValidationError], and carries the code of its
    class ([None] for the base class); [ServerError] and [NetworkError]
    are never raised. *)
Theorem X2_dispatcher_errors_have_the_code_of_their_class
    (self : Dandolo) (method endpoint : string) (data : option value)
    (w : world) (d : dandolo_error) :
  fst (_request self method endpoint data w) = Raise (SdkError d) ->
  cls d <> CServerError /\ cls d <> CNetworkError /\ code d = code_of (cls d).
Proof.
  intros Hrun. apply request_escapes in Hrun. cbn in Hrun.
  destruct (cls d); try discriminate Hrun;
    apply bool_decide_eq_true_1 in Hrun; by repeat split.
Qed.

Lemma X2_witness :
  exists d,
    fst (_request example_client "GET" "/v1/models" None
           (boot (always (reply 503 NoContent)) noon)) = Raise (SdkError d)
    /\ cls d = CDandoloError /\ code d = None.
Proof.
  eexists. split; [vm_compute; reflexivity |].
  destruct (X2_dispatcher_errors_have_the_code_of_their_class example_client
              "GET" "/v1/models" None (boot (always (reply 503 NoContent)) noon)
              (DandoloError (VStr "Server error: 503") None))
    as (_ & _ & Hcode).
  - vm_compute. reflexivity.
  - split; [reflexivity | exact Hcode].
Defined.

(** X3: no timeout and no connection error of [requests] ever leaves
    [_request]: each is retried or turned into an SDK error. *)
Theorem X3_timeouts_and_connection_errors_never_escape
    (self : Dandolo) (method endpoint : string) (data : option value) (w : world) :
  fst (_request self method endpoint data w) <> Raise (Requests ReqTimeout)
  /\ fst (_request self method endpoint data w) <> Raise (Requests ReqConnectionError).
Proof.
  split; intros Hrun; apply request_escapes in Hrun; discriminate Hrun.
Qed.

(** ** Transient failures of any kind *)





(** ** Answers and failures that are not retried *)

(** X6: a transport exception that is neither a timeout nor a
    connection error leaves [_request] at the attempt where it happens, as
    it is: not wrapped in an SDK error, not retried, no sleep. *)
Theorem X6_other_transport_exceptions_propagate
    (self : Dandolo) (method endpoint : string) (data : option value)
    (net : nat -> outcome) (clk : nat -> Z) :
  0 <= max_retries self ->
  supported method ->
  net 0%nat = Fails ReqOther ->
  let run := _request self method endpoint data (boot net clk) in
  fst run = Raise (Requests ReqOther)
  /\ trace (snd run) = [http_event self method endpoint data].
Proof.
  intros Hmax Hmethod Hnet run. unfold run.
  rewrite request_unfold by exact Hmax. rewrite request_loop_step.
  unfold try_except.
  rewrite (attempt_once_fails self method endpoint data 0 (boot net clk) ReqOther
             Hmethod Hnet).
  by split.
Qed.

Lemma X6_witness :
  fst (_request example_client "POST" "/v1/chat/completions" None
         (boot (fun _ => Fails ReqOther) noon))
  = Raise (Requests ReqOther).
Proof.
  apply (X6_other_transport_exceptions_propagate example_client "POST"
           "/v1/chat/completions" None (fun _ => Fails ReqOther) noon).
  - vm_compute. discriminate.
  - right. reflexivity.
  - reflexivity.
Defined.

(** X7: a first answer with status 401 ends the call after that one
    attempt with an error of class [AuthenticationError], code
    "authentication_error" and message "Invalid API key", whatever the
    body and the headers of the answer: the body is not read. *)
Theorem X7_unauthorized_ignores_the_body
    (self : Dandolo) (method endpoint : string) (data : option value)
    (net : nat -> outcome) (clk : nat -> Z) (r : response) :
  0 <= max_retries self ->
  supported method ->
  net 0%nat = Responds r ->
  status_code r = 401 ->
  let run := _request self method endpoint data (boot net clk) in
  (exists e, fst run = Raise (SdkError e)
     /\ cls e = CAuthenticationError
     /\ message e = VStr "Invalid API key"
     /\ code e = Some "authentication_error"
     /\ retry_after e = None)
  /\ trace (snd run) = [http_event self method endpoint data].
Proof.
  intros Hmax Hmethod Hnet Hs run.
  assert (Hrun : fst run = Raise (SdkError (AuthenticationError (VStr "Invalid API key")))
                 /\ trace (snd run) = [http_event self method endpoint data]).
  { apply (first_answer_raises self method endpoint data net clk r Hmax Hmethod Hnet);
      [| reflexivity].
    unfold handle_status. by rewrite Hs. }
  destruct Hrun as [Hres Htrace].
  split; [| exact Htrace].
  eexists. split; [exact Hres |]. by repeat split.
Qed.

Lemma X7_witness :
  fst (_request example_client "GET" "/v1/models" None
         (boot (always (reply 401 (Undecodable "<html>Unauthorized</html>"))) noon))
  = Raise (SdkError (AuthenticationError (VStr "Invalid API key"))).
Proof.
  destruct (X7_unauthorized_ignores_the_body example_client "GET" "/v1/models" None
              (always (reply 401 (Undecodable "<html>Unauthorized</html>"))) noon
              (reply 401 (Undecodable "<html>Unauthorized</html>")))
    as [([c m k ra] & Hres & Hc & Hm & Hk & Hra) _].
  - vm_compute. discriminate.
  - left. reflexivity.
  - reflexivity.
  - reflexivity.
  - cbn in Hc, Hm, Hk, Hra. subst c m k ra. exact Hres.
Defined.

(** X8: a first answer whose status is below 500 and none of 200, 401,
    429, 404, 400 (201 and 204 among them) is an error and is not retried:
    with a readable body the call raises the base [DandoloError], without
    code, whose message is [error.message] of the body when there is one
    and "Unknown error: <status>" otherwise. *)
Theorem X8_any_other_status_is_a_generic_error
    (self : Dandolo) (method endpoint : string) (data : option value)
    (net : nat -> outcome) (clk : nat -> Z) (r : response) :
  0 <= max_retries self ->
  supported method ->
  net 0%nat = Responds r ->
  status_code r < 500 ->
  status_code r <> 200 -> status_code r <> 401 -> status_code r <> 429 ->
  status_code r <> 404 -> status_code r <> 400 ->
  error_body_readable r = true ->
  let run := _request self method endpoint data (boot net clk) in
  fst run = Raise (SdkError (DandoloError
                    (default (VStr ("Unknown error: " +:+ pretty (status_code r)))
                       (body_error_message r)) None))
  /\ trace (snd run) = [http_event self method endpoint data].
Proof.
  intros Hmax Hmethod Hnet H500 H200 H401 H429 H404 H400 Hb run.
  apply (first_answer_raises self method endpoint data net clk r Hmax Hmethod Hnet);
    [| reflexivity].
  unfold handle_status. rewrite !status_is_not by assumption.
  destruct (Z.geb_spec (status_code r) 500); [lia |].
  unfold bind, lift. by rewrite (error_message_readable _ _ Hb).
Qed.

Lemma X8_witness :
  let suspended := reply 403 (Json (VDict {["error" :=
                     VDict {["message" := VStr "Key suspended"]}]})) in
  fst (_request example_client "POST" "/v1/chat/completions" None
         (boot (always (reply 201 NoContent)) noon))
  = Raise (SdkError (DandoloError (VStr "Unknown error: 201") None))
  /\ fst (_request example_client "POST" "/v1/chat/completions" None
            (boot (always suspended) noon))
     = Raise (SdkError (DandoloError (VStr "Key suspended") None)).
Proof.
  intros suspended. split.
  - destruct (X8_any_other_status_is_a_generic_error example_client "POST"
                "/v1/chat/completions" None (always (reply 201 NoContent)) noon
                (reply 201 NoContent)) as [Hres _];
      [vm_compute; discriminate | right; reflexivity | reflexivity
      | cbn; lia | cbn; lia | cbn; lia | cbn; lia | cbn; lia | cbn; lia
      | reflexivity | exact Hres].
  - destruct (X8_any_other_status_is_a_generic_error example_client "POST"
                "/v1/chat/completions" None (always suspended) noon suspended)
      as [Hres _];
      [vm_compute; discriminate | right; reflexivity | reflexivity
      | cbn; lia | cbn; lia | cbn; lia | cbn; lia | cbn; lia | cbn; lia
      | reflexivity | exact Hres].
Defined.

(** X9: with a negative [max_retries] the loop has no iteration: the
    call makes no HTTP call at all, whatever the method, and raises the
    base [DandoloError] "Max retries exceeded". *)
Theorem X9_negative_budget_makes_no_call
    (self : Dandolo) (method endpoint : string) (data : option value) (w : world) :
  max_retries self < 0 ->
  _request self method endpoint data w
  = (Raise (SdkError (DandoloError (VStr "Max retries exceeded") None)), w).
Proof.
  intros Hneg. unfold _request.
  by replace (Z.to_nat (max_retries self + 1)) with 0%nat by lia.
Qed.

Lemma X9_witness :
  let hasty := {| api_key := "dk_0123456789abcdef"; base_url := default_base_url;
                  timeout := default_timeout; max_retries := -1;
                  retry_delay := default_retry_delay; session_headers := [] |} in
  _request hasty "DELETE" "/v1/models" None (boot (always (reply 200 NoContent)) noon)
  = (Raise (SdkError (DandoloError (VStr "Max retries exceeded") None)),
     boot (always (reply 200 NoContent)) noon).
Proof.
  intros hasty. apply (X9_negative_budget_makes_no_call hasty "DELETE").
  vm_compute. reflexivity.
Defined.

(** X10: the method is matched without regard to case: for a supported
    method, the call behaves as the call with the method in upper case. *)
Theorem X10_method_case_is_ignored
    (self : Dandolo) (method endpoint : string) (data : option value) (w : world) :
  supported method ->
  _request self method endpoint data w
  = _request self (upper method) endpoint data w.
Proof.
  intros Hmethod. unfold _request.
  assert (Hup : upper (upper method) = upper method)
    by (destruct Hmethod as [-> | ->]; reflexivity).
  generalize (Z.to_nat (max_retries self + 1)) as n. generalize 0 as attempt.
  intros attempt n. revert attempt w.
  induction n as [| n IH]; intros attempt w; [reflexivity |].
  cbn [request_loop]. unfold attempt_once. rewrite Hup.
  assert (Hbranch : (if String.eqb (upper method) "GET" then true
                     else String.eqb (upper method) "POST") = true)
    by (destruct Hmethod as [-> | ->]; reflexivity).
  unfold bind, try_except.
  destruct (String.eqb (upper method) "GET");
    [| destruct (String.eqb (upper method) "POST"); [| discriminate Hbranch]];
    repeat case_match; simplify_eq; try reflexivity; apply IH.
Qed.

Lemma X10_witness :
  _request example_client "pOsT" "/v1/chat/completions" None
    (boot (always (reply 503 NoContent)) noon)
  = _request example_client "POST" "/v1/chat/completions" None
      (boot (always (reply 503 NoContent)) noon).
Proof.
  apply (X10_method_case_is_ignored example_client "pOsT").
  right. reflexivity.
Defined.

(** ** Key validation, again *)

(** X11: [validate_key] makes exactly the HTTP calls and sleeps of its
    model-list request and never raises an SDK error; it raises only when
    that request ended in an exception outside the [DandoloError] family,
    and then raises that same exception. *)
Theorem X11_validate_key_swallows_only_sdk_errors (self : Dandolo) (w : world) :
  let request := _request self "GET" "/v1/models" None w in
  let run := validate_key self w in
  snd run = snd request
  /\ (forall d, fst run <> Raise (SdkError d))
  /\ (forall e, fst run = Raise e <->
                fst request = Raise e /\ is_DandoloError e = false).
Proof.
  intros request run. unfold run, validate_key, try_except, bind. fold request.
  destruct request as [[v | e] w']; cbn.
  - split; [reflexivity |]. split; [discriminate |].
    intros e. split; [discriminate | intros [H _]; discriminate H].
  - destruct e; cbn;
      (split; [reflexivity |]); (split; [discriminate |]);
      intros e'; split;
      first [ intros [= <-]; by split
            | discriminate
            | intros [[= <-] H]; first [reflexivity | discriminate H] ].
Qed.

(** X12: every report [validate_key] returns has exactly the five keys
    is_valid, key_type, daily_usage, daily_limit and remaining; in a valid
    one the usage is 0 and limit and remaining are both 5000 for a key
    that starts with "ak_" and 500 for any other key. *)
Theorem X12_validate_key_report_numbers
    (self : Dandolo) (w : world) (report : gmap string value) :
  fst (validate_key self w) = Return report ->
  dom report = {["is_valid"; "key_type"; "daily_usage"; "daily_limit"; "remaining"]}
  /\ (report !! "is_valid" = Some (VBool true) ->
      let limit := if startswith (api_key self) "ak_" then 5000 else 500 in
      report !! "daily_usage" = Some (VInt 0)
      /\ report !! "daily_limit" = Some (VInt limit)
      /\ report !! "remaining" = Some (VInt limit)).
Proof.
  unfold validate_key, try_except, bind.
  destruct (_request self "GET" "/v1/models" None w) as [[v | e] w']; cbn.
  - intros [= <-]. split.
    + apply set_eq. intros k. rewrite !dom_insert, dom_empty. set_solver.
    + intros _. by destruct (startswith (api_key self) "ak_").
  - destruct e; cbn; try discriminate. intros [= <-]. split.
    + apply set_eq. intros k. rewrite !dom_insert, dom_empty. set_solver.
    + discriminate.
Qed.

Lemma X12_witness :
  let report : gmap string value :=
    <["is_valid" := VBool true]>
    (<["key_type" := VStr "agent"]>
     (<["daily_usage" := VInt 0]>
      (<["daily_limit" := VInt 5000]>
       {["remaining" := VInt 5000]}))) in
  fst (validate_key example_client
         (boot (always (reply 200 (Json (VDict ∅)))) noon)) = Return report
  /\ report !! "daily_limit" = Some (VInt 5000)
  /\ report !! "remaining" = Some (VInt 5000).
Proof.
  intros report.
  assert (Hrun : fst (validate_key example_client
                        (boot (always (reply 200 (Json (VDict ∅)))) noon))
                 = Return report) by (vm_compute; reflexivity).
  destruct (X12_validate_key_report_numbers example_client
              (boot (always (reply 200 (Json (VDict ∅)))) noon) report Hrun)
    as [_ Hnum].
  destruct Hnum as (_ & Hlimit & Hremaining); [vm_compute; reflexivity |].
  split; [exact Hrun |]. split; [exact Hlimit | exact Hremaining].
Defined.

(** ** Construction, again *)

Lemma rstrip_slash_spec (s : string) :
  exists n, s = rstrip_slash s +:+ slashes n
    /\ ends_with_slash (rstrip_slash s) = false.
Proof.
  induction s as [| c s (n & Hs & Hend)].
  - by exists 0%nat.
  - cbn [rstrip_slash]. destruct (rstrip_slash s) as [| a t] eqn:Hr.
    + destruct (Ascii.eqb_spec c "/") as [-> | Hc].
      * exists (S n). split; [| reflexivity]. cbn. by rewrite Hs at 1.
      * exists n. split; [cbn; by rewrite Hs at 1 |].
        cbn. by apply Ascii.eqb_neq.
    + exists n. split; [| exact Hend]. cbn. cbn in Hs. by rewrite Hs at 1.
Qed.

(** X13: the base URL a constructed client stores is the given URL
    without its trailing slashes, all of them and nothing else; so the URL
    of every call, base URL followed by the endpoint, has no doubled slash
    at the joint when the endpoint starts with one. *)
Theorem X13_base_url_loses_its_trailing_slashes
    (key : option string) (url : string) (tmo retries : Z) (delay : Q)
    (w w' : world) (c : Dandolo) :
  Dandolo_init key url tmo retries delay w = (Return c, w') ->
  (exists n, url = base_url c +:+ slashes n)
  /\ ends_with_slash (base_url c) = false
  /\ (forall method endpoint data,
        http_event c method endpoint data
        = if String.eqb (upper method) "GET"
          then EvGet (rstrip_slash url +:+ endpoint) tmo
          else EvPost (rstrip_slash url +:+ endpoint) data tmo).
Proof.
  unfold Dandolo_init. intros Hinit.
  assert (Hc : base_url c = rstrip_slash url /\ timeout c = tmo).
  { destruct key as [[| a k] |]; try discriminate Hinit.
    destruct (negb _); [discriminate Hinit |].
    injection Hinit as <- _. by split. }
  destruct Hc as [Hbase Htmo]. rewrite Hbase.
  destruct (rstrip_slash_spec url) as (n & Hurl & Hend).
  split; [by exists n |]. split; [exact Hend |].
  intros method endpoint data. unfold http_event. by rewrite Hbase, Htmo.
Qed.

Lemma X13_witness :
  exists c,
    fst (Dandolo_init (Some "dk_0123456789abcdef") "https://api.example.org/v2///"
           60 3 1 (boot (always (reply 200 NoContent)) noon)) = Return c
    /\ base_url c = "https://api.example.org/v2"
    /\ ends_with_slash (base_url c) = false.
Proof.
  eexists. split; [reflexivity |]. split; [reflexivity |].
  eapply (X13_base_url_loses_its_trailing_slashes (Some "dk_0123456789abcdef")
            "https://api.example.org/v2///" 60 3 1
            (boot (always (reply 200 NoContent)) noon)).
  reflexivity.
Defined.

(** X14: every key the integration script's [validate_api_key] accepts
    is a key [Dandolo.__init__] accepts; the script asks more: one of the
    two prefixes and at least 20 characters. *)
Theorem X14_script_key_check_is_stricter_than_the_client
    (key url : string) (tmo retries : Z) (delay : Q) (w : world) :
  (validate_api_key key = true <->
     ((exists rest, key = "dk_" +:+ rest) \/ (exists rest, key = "ak_" +:+ rest))
     /\ (20 <= String.length key)%nat)
  /\ (validate_api_key key = true ->
      exists c, Dandolo_init (Some key) url tmo retries delay w = (Return c, w)
        /\ api_key c = key).
Proof.
  assert (Hchar : validate_api_key key = true <->
            ((exists rest, key = "dk_" +:+ rest) \/ (exists rest, key = "ak_" +:+ rest))
            /\ (20 <= String.length key)%nat).
  { rewrite <- !startswith_spec. unfold validate_api_key.
    destruct key as [| c k].
    - split; [discriminate | intros [_ H]; cbn in H; lia].
    - cbn [existsb]. rewrite orb_false_r, andb_true_iff, orb_true_iff.
      by rewrite Nat.leb_le. }
  split; [exact Hchar |].
  intros Hvalid. apply Hchar in Hvalid as [Hprefix _].
  rewrite <- !startswith_spec, <- orb_true_iff in Hprefix.
  destruct key as [| a k]; [discriminate Hprefix |].
  unfold Dandolo_init. rewrite Hprefix. eexists. by split.
Qed.

Lemma X14_witness :
  validate_api_key "dk_0123456789abcdefgh" = true
  /\ validate_api_key "dk_short" = false
  /\ exists c, Dandolo_init (Some "dk_short") default_base_url default_timeout
                 default_max_retries default_retry_delay
                 (boot (always (reply 200 NoContent)) noon)
               = (Return c, boot (always (reply 200 NoContent)) noon).
Proof.
  destruct (X14_script_key_check_is_stricter_than_the_client "dk_0123456789abcdefgh"
              default_base_url default_timeout default_max_retries
              default_retry_delay (boot (always (reply 200 NoContent)) noon))
    as [[_ Hchar] _].
  split.
  - apply Hchar. split; [left; by exists "0123456789abcdefgh" | cbn; lia].
  - split; [reflexivity | by eexists].
Defined.

(** ** Records and listings, again *)

(** X15: [Model] accepts exactly the dicts that have an ["id"] and no
    key other than "id", "object", "created", "owned_by", "type" and
    "context_length", and raises [TypeError] for everything else without
    touching the world.  For a dict it accepts it reads the clock exactly
    once when ["created"] is absent or null, and then [created] is that
    reading; it does not read the clock otherwise, and then [created] is
    the entry of the dict; either way the [Model] it returns never has
    [None] in [created], and no request is sent. *)
Theorem X15_Model_constructor (el : value) (w : world) :
  (model_shaped el ->
   exists m, Model.new el w = (Return m, if lacks_created el then record_tick w else w)
     /\ built_from (clock w (ticks w)) el m
     /\ Model.created m <> VNone
     /\ trace (snd (Model.new el w)) = trace w
     /\ sent (snd (Model.new el w)) = sent w
     /\ ticks (snd (Model.new el w))
        = (if lacks_created el then S (ticks w) else ticks w)
     /\ (lacks_created el = true -> Model.created m = VInt (clock w (ticks w)))
     /\ (lacks_created el = false ->
         exists d, el = VDict d /\ d !! "created" = Some (Model.created m)))
  /\ (~ model_shaped el -> Model.new el w = (Raise TypeError, w)).
Proof.
  split; [| apply Model_new_unshaped].
  intros Hshape.
  destruct (Model_new_shaped el w Hshape) as (m & Hrun & Hbuilt).
  exists m. rewrite Hrun.
  destruct Hbuilt as (d & -> & Hid & Hobj & Hcreated & Hrest).
  split; [reflexivity |].
  split; [by exists d |].
  unfold lacks_created in *.
  destruct (d !! "created") as [c |] eqn:Hc; [destruct c |]; cbn in *;
    rewrite Hcreated; repeat split; try done; intros _; by exists d.
Qed.

Lemma X15_witness :
  exists m,
    fst (Model.new (VDict {["id" := VStr "llama-3"]})
           (boot (always (reply 200 NoContent)) noon)) = Return m
    /\ Model.created m = VInt (noon 0%nat)
    /\ ticks (snd (Model.new (VDict {["id" := VStr "llama-3"]})
                     (boot (always (reply 200 NoContent)) noon))) = 1%nat.
Proof.
  destruct (X15_Model_constructor (VDict {["id" := VStr "llama-3"]})
              (boot (always (reply 200 NoContent)) noon)) as [Hok _].
  destruct Hok as (m & Hm & _ & _ & _ & _ & Hticks & Hcreated & _).
  - eexists. split; [reflexivity |]. split.
    + refine (bool_decide_unpack _ _). vm_compute. exact I.
    + eexists. vm_compute. reflexivity.
  - exists m. split; [by rewrite Hm |]. split.
    + apply Hcreated. reflexivity.
    + rewrite Hticks. reflexivity.
Defined.

Lemma models_list_after_200 (self : Dandolo) (w w' : world) (d : gmap string value) :
  _request self "GET" "/v1/models" None w = (Return (VDict d), w') ->
  Models.list self w
  = match py_iter (default (VList []) (d !! "data")) with
    | Return els => comprehension Model.new els w'
    | Raise e => (Raise e, w')
    end.
Proof.
  intros Hreq. unfold Models.list. unfold bind at 1. rewrite Hreq.
  unfold bind at 1, lift, py_get. unfold default, bind.
  by destruct (py_iter _).
Qed.

(** X16: the listing is all or nothing: when the 200 answer is a JSON
    object whose ["data"] is a list with an element [Model] does not
    accept, or is null, [Models.list] raises [TypeError] after its one GET
    and returns no partial list; a null ["data"] is not treated as a
    missing one. *)
Theorem X16_models_list_is_all_or_nothing
    (self : Dandolo) (net : nat -> outcome) (clk : nat -> Z)
    (r : response) (d : gmap string value) :
  0 <= max_retries self ->
  net 0%nat = Responds r ->
  status_code r = 200 ->
  body r = Json (VDict d) ->
  let run := Models.list self (boot net clk) in
  (forall els, d !! "data" = Some (VList els) ->
     ~ Forall model_shaped els ->
     fst run = Raise TypeError
     /\ trace (snd run) = [EvGet (base_url self +:+ "/v1/models") (timeout self)])
  /\ (d !! "data" = Some VNone ->
      fst run = Raise TypeError
      /\ trace (snd run) = [EvGet (base_url self +:+ "/v1/models") (timeout self)]).
Proof.
  intros Hmax Hr Hs Hv run.
  assert (Hreq : _request self "GET" "/v1/models" None (boot net clk)
                 = (Return (VDict d),
                    record_call (EvGet (base_url self +:+ "/v1/models") (timeout self))
                      (boot net clk))).
  { apply (request_first_200 self "GET" "/v1/models" None (boot net clk) r);
      [exact Hmax | by left | exact Hr | exact Hs | exact Hv]. }
  unfold run. rewrite (models_list_after_200 _ _ _ _ Hreq). split.
  - intros els Hdata Hnot. rewrite Hdata. cbn -[comprehension].
    destruct (comprehension_rejects els
                (record_call (EvGet (base_url self +:+ "/v1/models") (timeout self))
                   (boot net clk)) Hnot) as (w' & Hw' & Htr).
    rewrite Hw'. by split.
  - intros Hdata. rewrite Hdata. by split.
Qed.

Lemma X16_witness :
  let good := VDict {["id" := VStr "llama-3"]} in
  let bad := VDict {["object" := VStr "model"]} in
  fst (Models.list example_client
         (boot (always (reply 200 (Json (VDict {["data" := VList [good; bad]]})))) noon))
  = Raise TypeError
  /\ fst (Models.list example_client
            (boot (always (reply 200 (Json (VDict {["data" := VNone]})))) noon))
     = Raise TypeError.
Proof.
  intros good bad. split.
  - destruct (X16_models_list_is_all_or_nothing example_client
                (always (reply 200 (Json (VDict {["data" := VList [good; bad]]})))) noon
                (reply 200 (Json (VDict {["data" := VList [good; bad]]})))
                {["data" := VList [good; bad]]}) as [Hbad _].
    + vm_compute. discriminate.
    + reflexivity.
    + reflexivity.
    + reflexivity.
    + apply (Hbad [good; bad]); [reflexivity |].
      intros Hall. inversion Hall as [| ? ? _ Hrest]; subst.
      inversion Hrest as [| ? ? (d' & Hd' & _ & [i Hi]) _]; subst.
      injection Hd' as <-. vm_compute in Hi. discriminate Hi.
  - destruct (X16_models_list_is_all_or_nothing example_client
                (always (reply 200 (Json (VDict {["data" := VNone]})))) noon
                (reply 200 (Json (VDict {["data" := VNone]})))
                {["data" := VNone]}) as [_ Hnull].
    + vm_compute. discriminate.
    + reflexivity.
    + reflexivity.
    + reflexivity.
    + apply Hnull. reflexivity.
Defined.

(** X17: a call of [create] that gives only the messages, by position or
    by keyword, with or without an explicit [None] for [max_tokens] and
    [temperature], posts exactly the three entries model "auto-select",
    the messages and stream false to /v1/chat/completions: a [None] is
    left out of the body, not sent as null. *)
Theorem X17_create_defaults (self : Dandolo) (msgs : value) (w : world) :
  let body := VDict (<["stream" := VBool false]>
                     (<["messages" := msgs]>
                      {["model" := VStr "auto-select"]})) in
  let post := _request self "POST" "/v1/chat/completions" (Some body) w in
  ChatCompletions.call_create self [msgs] ∅ w = post
  /\ ChatCompletions.call_create self [] {["messages" := msgs]} w = post
  /\ ChatCompletions.call_create self [msgs]
       (<["temperature" := VNone]> {["max_tokens" := VNone]}) w = post.
Proof.
  intros body post.
  assert (Hmk : forall a,
            ChatCompletions.messages a = msgs ->
            ChatCompletions.model a = VStr "auto-select" ->
            ChatCompletions.max_tokens a = VNone ->
            ChatCompletions.temperature a = VNone ->
            ChatCompletions.stream a = VBool false ->
            ChatCompletions.kwargs a = ∅ ->
            ChatCompletions.create self a w = post).
  { intros a Hm Hmo Hmt Ht Hst Hkw. unfold ChatCompletions.create, post, body.
    do 3 f_equal. unfold ChatCompletions.request_body, dict_update,
      ChatCompletions.required_fields.
    rewrite Hm, Hmo, Hmt, Ht, Hst, Hkw. cbn. by rewrite (left_id_L ∅ (∪)). }
  unfold ChatCompletions.call_create, bind, lift.
  split; [| split].
  - cbn. by apply Hmk.
  - assert (Hb : ChatCompletions.bind_call [] {["messages" := msgs]}
                 = Return {| ChatCompletions.messages := msgs;
                             ChatCompletions.model := VStr "auto-select";
                             ChatCompletions.max_tokens := VNone;
                             ChatCompletions.temperature := VNone;
                             ChatCompletions.stream := VBool false;
                             ChatCompletions.kwargs := ∅ |}).
    { vm_compute. reflexivity. }
    rewrite Hb. by apply Hmk.
  - assert (Hb : ChatCompletions.bind_call [msgs]
                   (<["temperature" := VNone]> {["max_tokens" := VNone]})
                 = Return {| ChatCompletions.messages := msgs;
                             ChatCompletions.model := VStr "auto-select";
                             ChatCompletions.max_tokens := VNone;
                             ChatCompletions.temperature := VNone;
                             ChatCompletions.stream := VBool false;
                             ChatCompletions.kwargs := ∅ |})
      by reflexivity.
    rewrite Hb. by apply Hmk.
Qed.

(** X18: [ChatCompletion], called with the entries of a dict that has an
    ["id"] and no key outside its six fields, returns a record that never
    has [None] in [created] or in [choices]: a missing or null [created]
    becomes the time, a missing or null [choices] the empty list, and a
    given list of choices is stored as it is, the entries undecoded. *)
Theorem X18_ChatCompletion_constructor (d : gmap string value) (w : world) :
  map_Forall (fun k _ => k ∈ ChatCompletion.fields) d ->
  is_Some (d !! "id") ->
  exists c w', ChatCompletion.new (VDict d) w = (Return c, w')
    /\ d !! "id" = Some (ChatCompletion.id c)
    /\ ChatCompletion.created c <> VNone
    /\ ChatCompletion.choices c <> VNone
    /\ (forall els, d !! "choices" = Some (VList els) ->
          ChatCompletion.choices c = VList els)
    /\ (d !! "choices" = None \/ d !! "choices" = Some VNone ->
        ChatCompletion.choices c = VList [])
    /\ (d !! "created" = None \/ d !! "created" = Some VNone ->
        ChatCompletion.created c = VInt (clock w (ticks w)))
    /\ trace w' = trace w /\ sent w' = sent w.
Proof.
  intros Hkeys [i Hid]. unfold ChatCompletion.new.
  rewrite bool_decide_eq_true_2 by exact Hkeys. rewrite Hid. unfold bind.
  destruct (d !! "created") as [cr |] eqn:Hcr; cbn [default];
    [destruct cr |]; cbn;
    eexists; eexists; (split; [reflexivity |]); cbn;
    (split; [reflexivity |]); (split; [discriminate |]);
    (split; [by destruct (d !! "choices") as [[] |] |]);
    (split; [intros els ->; reflexivity |]);
    (split; [by intros [-> | ->] |]);
    (split; [by intros [H | H]; first [discriminate H | reflexivity] |]);
    by split.
Qed.

Lemma X18_witness :
  let choice := VDict (<["message" := VDict (<["content" := VStr "hi"]>
                                             {["role" := VStr "assistant"]})]>
                       {["index" := VInt 0]}) in
  let payload : gmap string value :=
    <["id" := VStr "x"]> {["choices" := VList [choice]]} in
  exists c w',
    ChatCompletion.new (VDict payload) (boot (always (reply 200 NoContent)) noon)
    = (Return c, w')
    /\ ChatCompletion.choices c = VList [choice]
    /\ ChatCompletion.created c = VInt 1700000000.
Proof.
  intros choice payload.
  destruct (X18_ChatCompletion_constructor payload
              (boot (always (reply 200 NoContent)) noon))
    as (c & w' & Hnew & _ & _ & _ & Hchoices & _ & Hcreated & _).
  - refine (bool_decide_unpack _ _). vm_compute. exact I.
  - eexists. vm_compute. reflexivity.
  - exists c, w'. split; [exact Hnew |]. split.
    + apply Hchoices. reflexivity.
    + apply Hcreated. left. reflexivity.
Defined.

(** X19: every HTTP call a bound call of [create] makes is the POST of
    the same request body to /v1/chat/completions: a retry, after a 5xx
    answer as after a timeout or a connection error, submits the body
    again, unchanged, and there are never more than [max_retries + 1]
    submissions. *)
Theorem X19_create_resubmits_the_same_body
    (self : Dandolo) (a : ChatCompletions.arguments) (w : world) :
  0 <= max_retries self ->
  let post := EvPost (base_url self +:+ "/v1/chat/completions")
                (Some (VDict (ChatCompletions.request_body a))) (timeout self) in
  let run := ChatCompletions.create self a w in
  exists j, (j <= Z.to_nat (max_retries self))%nat
    /\ trace (snd run) = trace w ++ retries self post 0 j ++ [post]
    /\ List.filter is_call (retries self post 0 j ++ [post]) = repeat post (S j).
Proof.
  intros Hmax post run. unfold run, ChatCompletions.create.
  rewrite request_unfold by exact Hmax.
  destruct (request_loop_trace self "POST" "/v1/chat/completions"
              (Some (VDict (ChatCompletions.request_body a)))
              (or_intror eq_refl) (S (Z.to_nat (max_retries self))) 0 w)
    as (j & Hj & Htr & _); [lia | lia |].
  exists j. split; [lia |]. split; [exact Htr |].
  clear Hj Htr. unfold retries. generalize 0%nat as k.
  induction j as [| j IH]; intros k; [reflexivity |].
  cbn [seq flat_map app List.filter is_call post].
  by rewrite IH.
Qed.

Lemma X19_witness :
  let hello := VList [VDict (<["content" := VStr "Hello!"]> {["role" := VStr "user"]})] in
  let a := {| ChatCompletions.messages := hello;
              ChatCompletions.model := VStr "auto-select";
              ChatCompletions.max_tokens := VNone;
              ChatCompletions.temperature := VNone;
              ChatCompletions.stream := VBool false;
              ChatCompletions.kwargs := ∅ |} in
  let late := fun k : nat =>
    match k with
    | 0%nat => Fails ReqTimeout
    | _ => Responds (reply 200 (Json (VDict {["id" := VStr "x"]})))
    end in
  exists j, (j <= 3)%nat
    /\ attempts (trace (snd (ChatCompletions.create example_client a (boot late noon))))
       = S j.
Proof.
  intros hello a late.
  destruct (X19_create_resubmits_the_same_body example_client a (boot late noon))
    as (j & Hj & Htr & Hposts).
  - vm_compute. discriminate.
  - exists j. split; [exact Hj |]. rewrite Htr. unfold attempts.
    cbn [trace boot app]. rewrite Hposts. by rewrite repeat_length.
Defined.

(** ** Rate limits and refused requests with a readable body *)

(** X20: a first answer with status 429 whose body is readable (empty,
    or a JSON object whose ["error"] entry is absent or an object) ends
    the call after that one attempt, without sleep, with an error of class
    [RateLimitError] and code "rate_limit_error"; its [retry_after] is the
    value of the Retry-After header when the answer has one and [None]
    when it has none; its message is the entry [error.message] of the body
    when there is one and "Rate limit exceeded" otherwise. *)
Theorem X20_rate_limit_with_readable_body
    (self : Dandolo) (method endpoint : string) (data : option value)
    (net : nat -> outcome) (clk : nat -> Z) (r : response) :
  0 <= max_retries self ->
  supported method ->
  net 0%nat = Responds r ->
  status_code r = 429 ->
  error_body_readable r = true ->
  let run := _request self method endpoint data (boot net clk) in
  trace (snd run) = [http_event self method endpoint data]
  /\ exists e, fst run = Raise (SdkError e)
       /\ cls e = CRateLimitError
       /\ code e = Some "rate_limit_error"
       /\ retry_after e = headers r !! "retry-after"
       /\ message e = default (VStr "Rate limit exceeded") (body_error_message r).
Proof.
  intros Hmax Hmethod Hfirst Hs Hb run.
  destruct (rate_limited_answer self method endpoint data net clk r
              Hmax Hmethod Hfirst Hs) as [Hres Htrace].
  split; [exact Htrace |].
  rewrite (error_message_readable _ _ Hb) in Hres.
  eexists. split; [exact Hres |]. by repeat split.
Qed.

Lemma X20_witness :
  let limited := {| status_code := 429;
                    body := Json (VDict {["error" := VDict {["message" := VStr "Slow down"]}]});
                    headers := {["retry-after" := "30"]} |} in
  let run := _request example_client "POST" "/v1/chat/completions" None
               (boot (always limited) noon) in
  fst run = Raise (SdkError (RateLimitError (VStr "Slow down") (Some "30")))
  /\ fst (_request example_client "POST" "/v1/chat/completions" None
            (boot (always (reply 429 NoContent)) noon))
     = Raise (SdkError (RateLimitError (VStr "Rate limit exceeded") None)).
Proof.
  intros limited run. split.
  - destruct (X20_rate_limit_with_readable_body example_client "POST"
                "/v1/chat/completions" None (always limited) noon limited)
      as (_ & [c m k ra] & Hres & Hc & _ & Hra & Hm).
    + vm_compute. discriminate.
    + right. reflexivity.
    + reflexivity.
    + reflexivity.
    + reflexivity.
    + cbn in Hc, Hra, Hm. subst c ra m. unfold run. rewrite Hres.
      vm_compute in Hres. by injection Hres as <-.
  - destruct (X20_rate_limit_with_readable_body example_client "POST"
                "/v1/chat/completions" None (always (reply 429 NoContent)) noon
                (reply 429 NoContent))
      as (_ & [c m k ra] & Hres & Hc & _ & Hra & Hm).
    + vm_compute. discriminate.
    + right. reflexivity.
    + reflexivity.
    + reflexivity.
    + reflexivity.
    + cbn in Hc, Hra, Hm. subst c ra m. rewrite Hres.
      vm_compute in Hres. by injection Hres as <-.
Defined.

(** X21: a first answer with status 400 whose body is readable (empty,
    or a JSON object whose ["error"] entry is absent or an object) ends
    the call after that one attempt, without sleep, with an error of class
    [ValidationError] and code "validation_error"; its message is the
    entry [error.message] of the body when there is one, and the fixed
    text "Invalid request" when the body, its ["error"] entry or the
    ["message"] entry of that is missing. *)
Theorem X21_validation_error_with_readable_body
    (self : Dandolo) (method endpoint : string) (data : option value)
    (net : nat -> outcome) (clk : nat -> Z) (r : response) :
  0 <= max_retries self ->
  supported method ->
  net 0%nat = Responds r ->
  status_code r = 400 ->
  error_body_readable r = true ->
  let run := _request self method endpoint data (boot net clk) in
  trace (snd run) = [http_event self method endpoint data]
  /\ exists e, fst run = Raise (SdkError e)
       /\ cls e = CValidationError
       /\ code e = Some "validation_error"
       /\ message e = match body_error_message r with
                      | Some m => m
                      | None => VStr "Invalid request"
                      end.
Proof.
  intros Hmax Hmethod Hfirst Hs Hb run.
  destruct (invalid_request_answer self method endpoint data net clk r
              Hmax Hmethod Hfirst Hs) as [Hres Htrace].
  split; [exact Htrace |].
  rewrite (error_message_readable _ _ Hb) in Hres.
  eexists. split; [exact Hres |]. by repeat split.
Qed.

Lemma X21_witness :
  let told := reply 400 (Json (VDict {["error" :=
                  VDict {["message" := VStr "messages must not be empty"]}]})) in
  let untold := reply 400 (Json (VDict {["error" := VDict ∅]})) in
  fst (_request example_client "POST" "/v1/chat/completions" None
         (boot (always told) noon))
  = Raise (SdkError (ValidationError (VStr "messages must not be empty")))
  /\ fst (_request example_client "POST" "/v1/chat/completions" None
            (boot (always untold) noon))
     = Raise (SdkError (ValidationError (VStr "Invalid request"))).
Proof.
  intros told untold. split.
  - destruct (X21_validation_error_with_readable_body example_client "POST"
                "/v1/chat/completions" None (always told) noon told)
      as (_ & [c m k ra] & Hres & Hc & _ & Hm).
    + vm_compute. discriminate.
    + right. reflexivity.
    + reflexivity.
    + reflexivity.
    + reflexivity.
    + cbn in Hc, Hm. subst c m. rewrite Hres.
      vm_compute in Hres. by injection Hres as <- <-.
  - destruct (X21_validation_error_with_readable_body example_client "POST"
                "/v1/chat/completions" None (always untold) noon untold)
      as (_ & [c m k ra] & Hres & Hc & _ & Hm).
    + vm_compute. discriminate.
    + right. reflexivity.
    + reflexivity.
    + reflexivity.
    + reflexivity.
    + cbn in Hc, Hm. subst c m. rewrite Hres.
      vm_compute in Hres. by injection Hres as <- <-.
Defined.

(** ** Delays that cannot be slept *)



